(** * Departmental cost allocation: OU tree traversal and cost-category
      reconciliation

    A shallow embedding of the Lambda function that walks an AWS
    Organizations hierarchy and keeps one Cost Explorer cost category per
    top-level organizational unit (OU).

    The two boto3 clients are explicit dependencies.  The Organizations
    client is read-only and is modelled as a snapshot of the directory; the
    Cost Explorer client is modelled as a set of operations over an abstract
    world [W].  Every remote call and every [print] is recorded in a trace,
    and Python exceptions are explicit outcomes. *)

From Stdlib Require Import String Ascii List Bool Arith Lia.
From Stdlib Require Import DecimalString DecimalNat.
Import ListNotations.
Local Open Scope string_scope.
Local Open Scope list_scope.

(** ** Exceptions and outcomes *)

(** [ClientError] is [botocore.exceptions.ClientError]; the carried string
    is [str(e)].  [IndexError] is raised by [lst[0]] on an empty list and
    [RecursionError] by the interpreter when the call stack is exhausted.
    [OtherError] stands for every other exception a remote call may raise
    (for instance a connection error, which is not a [ClientError]). *)
Inductive exception : Type :=
| ClientError (msg : string)
| IndexError (msg : string)
| RecursionError (msg : string)
| OtherError (msg : string).

Definition is_ClientError (e : exception) : bool :=
  match e with ClientError _ => true | _ => false end.

Inductive outcome (A : Type) : Type :=
| Return (a : A)
| Raise (e : exception).
Arguments Return {A} a.
Arguments Raise {A} e.

(** ** Data exchanged with the two services *)

(** An entry of [page['Accounts']]. *)
Record account : Type := mk_account {
  account_Id : string;
  account_Name : string;
  account_Status : string
}.

(** The dictionary [{'Id': ..., 'Name': ...}] appended by the collector. *)
Record account_entry : Type := mk_entry {
  Id : string;
  Name : string
}.

(** An entry of [page['Children']] and of [response['Roots']]. *)
Record child : Type := mk_child { child_Id : string }.
Record root : Type := mk_root { root_Id : string }.

(** A paginated listing: the pages the paginator delivers, in order, and
    the exception raised when the next page is requested, if any. *)
Record paginated (A : Type) : Type := mk_paginated {
  pages : list (list A);
  failure : option exception
}.
Arguments mk_paginated {A} pages failure.
Arguments pages {A} p.
Arguments failure {A} p.

(** The Organizations client, as seen during one run. *)
Record organizations_client : Type := mk_organizations {
  list_roots : outcome (list root);
  list_accounts_for_parent : string -> paginated account;
  list_children : string -> paginated child;
  describe_organizational_unit : string -> outcome string
}.

(** One rule of a cost category:
    [{'Value': v, 'Rule': {'Dimensions': {'Key': k, 'Values': vs,
    'MatchOptions': ms}}}]. *)
Record rule : Type := mk_rule {
  rule_Value : string;
  dimension_Key : string;
  dimension_Values : list string;
  dimension_MatchOptions : list string
}.

(** An entry of [CostCategoryReferences]. *)
Record cost_category_reference : Type := mk_reference {
  reference_Name : string;
  CostCategoryArn : string
}.

(** The response of [list_cost_category_definitions]; the key
    [CostCategoryReferences] may be absent. *)
Record list_response : Type := mk_list_response {
  CostCategoryReferences : option (list cost_category_reference)
}.

(** The Cost Explorer client over a world [W] (the remote store together
    with whatever decides which calls fail). *)
Record ce_client (W : Type) : Type := mk_ce {
  list_cost_category_definitions : W -> W * outcome list_response;
  update_cost_category_definition :
    string -> string -> list rule -> W -> W * outcome unit;
  create_cost_category_definition :
    string -> string -> list rule -> string -> W -> W * outcome unit
}.
Arguments list_cost_category_definitions {W} c w.
Arguments update_cost_category_definition {W} c CostCategoryArn RuleVersion Rules w.
Arguments create_cost_category_definition {W} c Name RuleVersion Rules DefaultValue w.

(** The dictionary returned by the handler. *)
Record response : Type := mk_response {
  statusCode : nat;
  body : string
}.

(** ** Traces *)

Inductive call : Type :=
| list_roots_call
| list_accounts_for_parent_call (ParentId : string)
| list_children_call (ParentId : string) (ChildType : string)
| describe_organizational_unit_call (OrganizationalUnitId : string)
| list_cost_category_definitions_call
| update_cost_category_definition_call
    (Arn : string) (RuleVersion : string) (Rules : list rule)
| create_cost_category_definition_call
    (CategoryName : string) (RuleVersion : string) (Rules : list rule)
    (DefaultValue : string).

Inductive event : Type :=
| Called (c : call)
| Printed (msg : string).

(** ** The monad

    A computation reads and writes a state [S] (the local variables that
    survive a [try] block, or the remote world), emits events and either
    returns or raises.  The state is kept when an exception is raised, as a
    Python list mutated inside a [try] block is. *)
Definition M (S A : Type) : Type := S -> S * list event * outcome A.

(** A call whose only effects are its events. *)
Definition D (A : Type) : Type := (list event * outcome A)%type.

Definition ret {S A} (a : A) : M S A := fun s => (s, [], Return a).

Definition bind {S A B} (m : M S A) (k : A -> M S B) : M S B :=
  fun s =>
    match m s with
    | (s1, t1, Return a) =>
        match k a s1 with (s2, t2, r) => (s2, t1 ++ t2, r) end
    | (s1, t1, Raise e) => (s1, t1, Raise e)
    end.

Declare Scope monad_scope.
Delimit Scope monad_scope with monad.
Notation "x <- m ;; k" := (bind m (fun x => k))
  (at level 61, m at next level, right associativity) : monad_scope.
Notation "m ;; k" := (bind m (fun _ => k))
  (at level 61, right associativity) : monad_scope.
Local Open Scope monad_scope.

Definition raise {S A} (e : exception) : M S A := fun s => (s, [], Raise e).
Definition emit {S} (ev : event) : M S unit := fun s => (s, [ev], Return tt).
Definition print {S} (msg : string) : M S unit := emit (Printed msg).
Definition get {S} : M S S := fun s => (s, [], Return s).
Definition modify {S} (f : S -> S) : M S unit := fun s => (f s, [], Return tt).

(** [try: m except ClientError as e: handler (str e)].  Any other exception
    passes through. *)
Definition try_except_ClientError {S A} (m : M S A) (handler : string -> M S A)
  : M S A :=
  fun s =>
    match m s with
    | (s1, t1, Raise (ClientError msg)) =>
        match handler msg s1 with (s2, t2, r) => (s2, t1 ++ t2, r) end
    | r => r
    end.

(** Calling a function that has no state of its own to share. *)
Definition lift {S A} (d : D A) : M S A := fun s => (s, fst d, snd d).

(** Running a function body with its own local variables. *)
Definition run_locals {S A} (m : M S A) (locals : S) : D A :=
  match m locals with (_, t, r) => (t, r) end.

(** A remote call on the world. *)
Definition remote {W A} (c : call) (op : W -> W * outcome A) : M W A :=
  fun w => match op w with (w1, r) => (w1, [Called c], r) end.

(** [for x in l: body x]. *)
Fixpoint for_each {S A} (body : A -> M S unit) (l : list A) : M S unit :=
  match l with
  | [] => ret tt
  | x :: l' => body x ;; for_each body l'
  end.

(** [for page in paginator.paginate(...): for x in page[...]: body x].
    The delivered pages are consumed in order; the failure, if any, is
    raised when the page after the last delivered one is requested.  The
    trace records the paginated listing as one call. *)
Definition paginate {S A} (c : call) (p : paginated A) (body : A -> M S unit)
  : M S unit :=
  emit (Called c) ;;
  for_each (for_each body) (pages p) ;;
  match failure p with
  | Some e => raise e
  | None => ret tt
  end.

(** ** [get_accounts_by_ou] *)

Definition accounts_error_message (ou_id msg : string) : string :=
  "Error getting accounts for OU " ++ ou_id ++ ": " ++ msg.

Definition children_error_message (ou_id msg : string) : string :=
  "Error getting child OUs for " ++ ou_id ++ ": " ++ msg.

(** The body of the inner loop over [page['Accounts']]. *)
Definition append_if_active (a : account) : M (list account_entry) unit :=
  if (account_Status a =? "ACTIVE")%string
  then modify (fun accounts =>
                 accounts ++ [mk_entry (account_Id a) (account_Name a)])
  else ret tt.

(** The body of the loop over [page['Children']]. *)
Definition extend_with_child (self : string -> D (list account_entry))
    (c : child) : M (list account_entry) unit :=
  child_accounts <- lift (self (child_Id c)) ;;
  modify (fun accounts => accounts ++ child_accounts).

(** The body of the function; [self] is the recursive call and the state
    is the local list [accounts]. *)
Definition get_accounts_by_ou_body
    (organizations_client : organizations_client)
    (self : string -> D (list account_entry)) (ou_id : string)
  : M (list account_entry) (list account_entry) :=
  returned <-
    try_except_ClientError
      (paginate (list_accounts_for_parent_call ou_id)
         (list_accounts_for_parent organizations_client ou_id)
         append_if_active ;;
       ret None)
      (fun e =>
         print (accounts_error_message ou_id e) ;;
         accounts <- get ;;
         ret (Some accounts)) ;;
  match returned with
  | Some accounts => ret accounts
  | None =>
      try_except_ClientError
        (paginate (list_children_call ou_id "ORGANIZATIONAL_UNIT")
           (list_children organizations_client ou_id)
           (extend_with_child self))
        (fun e => print (children_error_message ou_id e)) ;;
      get
  end.

Definition recursion_message : string :=
  "maximum recursion depth exceeded".

(** [depth] is the number of nested calls the interpreter still allows;
    Python raises [RecursionError] when it is exhausted. *)
Fixpoint get_accounts_by_ou (organizations_client : organizations_client)
    (depth : nat) (ou_id : string) : D (list account_entry) :=
  match depth with
  | 0 => ([], Raise (RecursionError recursion_message))
  | S depth' =>
      run_locals
        (get_accounts_by_ou_body organizations_client
           (get_accounts_by_ou organizations_client depth') ou_id)
        []
  end.

(** ** [get_ou_details] *)

Definition details_error_message (ou_id msg : string) : string :=
  "Error getting OU details for " ++ ou_id ++ ": " ++ msg.

Definition get_ou_details (organizations_client : organizations_client)
    (ou_id : string) : D (option string) :=
  run_locals
    (try_except_ClientError
       (response <-
          remote (describe_organizational_unit_call ou_id)
            (fun u : unit =>
               (u, describe_organizational_unit organizations_client ou_id)) ;;
        ret (Some response))
       (fun e =>
          print (details_error_message ou_id e) ;;
          ret None))
    tt.

(** ** [create_or_update_cost_category] *)

Definition rule_version : string := "CostCategoryExpression.v1".

Definition category_name_of (ou_name : string) : string := "OU-" ++ ou_name.

Definition build_rules (ou_name : string) (account_ids : list string)
  : list rule :=
  [mk_rule ou_name "LINKED_ACCOUNT" account_ids ["EQUALS"]].

Definition has_name (category_name : string) (cat : cost_category_reference)
  : bool :=
  (reference_Name cat =? category_name)%string.

(** [d.get(key, [])]. *)
Definition get_default {A} (field : option (list A)) : list A :=
  match field with Some l => l | None => [] end.

(** [d[key]]; a missing key raises. *)
Definition subscript_key {S A} (key : string) (field : option A) : M S A :=
  match field with
  | Some v => ret v
  | None => raise (OtherError ("KeyError: " ++ key))
  end.

(** [l[0]]. *)
Definition subscript_0 {S A} (l : list A) : M S A :=
  match l with
  | x :: _ => ret x
  | [] => raise (IndexError "list index out of range")
  end.

Definition manage_error_message (category_name msg : string) : string :=
  "Error managing cost category " ++ category_name ++ ": " ++ msg.

Definition create_or_update_cost_category {W} (ce_client : ce_client W)
    (ou_name : string) (account_ids : list string) : M W unit :=
  let category_name := category_name_of ou_name in
  try_except_ClientError
    (existing_categories <-
       remote list_cost_category_definitions_call
         (list_cost_category_definitions ce_client) ;;
     let category_exists :=
       existsb (has_name category_name)
         (get_default (CostCategoryReferences existing_categories)) in
     let rules := build_rules ou_name account_ids in
     if category_exists then
       references <-
         subscript_key "CostCategoryReferences"
           (CostCategoryReferences existing_categories) ;;
       cat <- subscript_0 (filter (has_name category_name) references) ;;
       remote
         (update_cost_category_definition_call
            (CostCategoryArn cat) rule_version rules)
         (update_cost_category_definition ce_client
            (CostCategoryArn cat) rule_version rules) ;;
       print ("Updated cost category: " ++ category_name)
     else
       remote
         (create_cost_category_definition_call
            category_name rule_version rules "Other")
         (create_cost_category_definition ce_client
            category_name rule_version rules "Other") ;;
       print ("Created cost category: " ++ category_name))
    (fun e => print (manage_error_message category_name e)).

(** ** [lambda_handler] *)

(** Python truthiness of [ou_name]: [None] and the empty string are falsy. *)
Definition truthy_name (ou_name : option string) : option string :=
  match ou_name with
  | Some "" => None
  | other => other
  end.

(** The body of the loop over [page['Children']] (one top-level OU). *)
Definition lambda_handler_ou {W} (organizations_client : organizations_client)
    (ce_client : ce_client W) (depth : nat) (ou : child) : M W unit :=
  ou_name <- lift (get_ou_details organizations_client (child_Id ou)) ;;
  match truthy_name ou_name with
  | None => ret tt
  | Some ou_name =>
      accounts <-
        lift (get_accounts_by_ou organizations_client depth (child_Id ou)) ;;
      let account_ids := map Id accounts in
      match account_ids with
      | [] => ret tt
      | _ :: _ =>
          create_or_update_cost_category ce_client ou_name account_ids
      end
  end.

Definition success_text : string := "Cost categories updated successfully".

Section Handler.

(** [json.dumps] on a string. *)
Variable json_dumps : string -> string.

(** The [try] block of the handler. *)
Definition lambda_handler_try {W} (organizations_client : organizations_client)
    (ce_client : ce_client W) (depth : nat) : M W response :=
  root_response <-
    remote list_roots_call
      (fun w : W => (w, list_roots organizations_client)) ;;
  first_root <- subscript_0 root_response ;;
  let root_id := root_Id first_root in
  paginate (list_children_call root_id "ORGANIZATIONAL_UNIT")
    (list_children organizations_client root_id)
    (lambda_handler_ou organizations_client ce_client depth) ;;
  ret (mk_response 200 (json_dumps success_text)).

Definition lambda_handler {W} (organizations_client : organizations_client)
    (ce_client : ce_client W) (depth : nat) : M W response :=
  try_except_ClientError
    (lambda_handler_try organizations_client ce_client depth)
    (fun e =>
       print ("Error in lambda execution: " ++ e) ;;
       ret (mk_response 500 (json_dumps ("Error: " ++ e)))).

End Handler.

(** * Vocabulary of the properties *)

(** ** Observing a run *)

Definition world_of {S A} (r : S * list event * outcome A) : S := fst (fst r).
Definition trace_of {S A} (r : S * list event * outcome A) : list event :=
  snd (fst r).
Definition outcome_of {S A} (r : S * list event * outcome A) : outcome A :=
  snd r.

(** The remote calls of a trace, in order. *)
Fixpoint calls (t : list event) : list call :=
  match t with
  | [] => []
  | Called c :: t' => c :: calls t'
  | Printed _ :: t' => calls t'
  end.

(** The calls addressed to the classification store. *)
Definition is_classification_call (c : call) : bool :=
  match c with
  | list_cost_category_definitions_call
  | update_cost_category_definition_call _ _ _
  | create_cost_category_definition_call _ _ _ _ => true
  | _ => false
  end.


(** The calls of a trace that are addressed to the classification store. *)
Definition classification_calls (t : list event) : list call :=
  filter is_classification_call (calls t).

(** The list a call returned, if it returned. *)
Definition returned_list {A} (d : D (list A)) : list A :=
  match snd d with Return l => l | Raise _ => [] end.

(** ** The collector *)

Definition is_active (a : account) : bool :=
  (account_Status a =? "ACTIVE")%string.

Definition entry_of (a : account) : account_entry :=
  mk_entry (account_Id a) (account_Name a).

(** The entries the first loop appends for the accounts it is given. *)
Definition active_entries (l : list account) : list account_entry :=
  map entry_of (filter is_active l).

Definition all_accounts (organizations_client : organizations_client)
    (ou_id : string) : list account :=
  concat (pages (list_accounts_for_parent organizations_client ou_id)).

Definition all_children (organizations_client : organizations_client)
    (ou_id : string) : list child :=
  concat (pages (list_children organizations_client ou_id)).

(** The loop over the child OUs, started with [accounts] already
    collected. *)
Definition children_loop (self : string -> D (list account_entry))
    (children : list child) : M (list account_entry) unit :=
  for_each (extend_with_child self) children.

(** ** OU trees *)

(** A finite OU tree: the OU, the accounts it owns directly and its child
    OUs. *)
#[local] Unset Elimination Schemes.
Inductive ou_tree : Type :=
| Node (node_id : string) (node_accounts : list account)
       (node_children : list ou_tree).
#[local] Set Elimination Schemes.

Definition node_id (t : ou_tree) : string :=
  match t with Node i _ _ => i end.
Definition node_accounts (t : ou_tree) : list account :=
  match t with Node _ a _ => a end.
Definition node_children (t : ou_tree) : list ou_tree :=
  match t with Node _ _ k => k end.


Fixpoint height (t : ou_tree) : nat :=
  match t with
  | Node _ _ kids => S (fold_right (fun k h => Nat.max (height k) h) 0 kids)
  end.

(** The accounts owned anywhere in the tree, the OU's own first. *)
Fixpoint tree_accounts (t : ou_tree) : list account :=
  match t with
  | Node _ accs kids => accs ++ flat_map tree_accounts kids
  end.

(** The directory answers every listing below [t] successfully and as the
    tree says. *)
Fixpoint represents (oc : organizations_client) (t : ou_tree) : Prop :=
  match t with
  | Node i accs kids =>
      failure (list_accounts_for_parent oc i) = None
      /\ all_accounts oc i = accs
      /\ failure (list_children oc i) = None
      /\ map child_Id (all_children oc i) = map node_id kids
      /\ (fix all (l : list ou_tree) : Prop :=
            match l with
            | [] => True
            | k :: l' => represents oc k /\ all l'
            end) kids
  end.

(** ** Well-behaved clients *)

(** Every failure of the directory service is a [ClientError]. *)
Record directory_client_errors_only (oc : organizations_client) : Prop := {
  roots_client_error :
    forall e, list_roots oc = Raise e -> is_ClientError e = true;
  accounts_client_error :
    forall ou e, failure (list_accounts_for_parent oc ou) = Some e ->
                 is_ClientError e = true;
  children_client_error :
    forall ou e, failure (list_children oc ou) = Some e ->
                 is_ClientError e = true;
  describe_client_error :
    forall ou e, describe_organizational_unit oc ou = Raise e ->
                 is_ClientError e = true
}.

(** The OUs listed below [ou_id] are nested less than [depth] levels deep:
    the hierarchy below [ou_id] is finite and acyclic and the collector
    does not exhaust the call stack on it. *)
Fixpoint nesting_within (oc : organizations_client) (depth : nat)
    (ou_id : string) : Prop :=
  match depth with
  | 0 => False
  | S depth' =>
      forall c, In c (all_children oc ou_id) ->
                nesting_within oc depth' (child_Id c)
  end.

(** Every failure of the classification store is a [ClientError]. *)
Record ce_client_errors_only {W} (ce : ce_client W) : Prop := {
  list_client_error :
    forall w e, snd (list_cost_category_definitions ce w) = Raise e ->
                is_ClientError e = true;
  update_client_error :
    forall arn version rules w e,
      snd (update_cost_category_definition ce arn version rules w) = Raise e ->
      is_ClientError e = true;
  create_client_error :
    forall name version rules default w e,
      snd (create_cost_category_definition ce name version rules default w)
      = Raise e ->
      is_ClientError e = true
}.

(** ** The handler, seen from outside *)

(** What a remote operation did, as the reconciler sees it. *)
Definition finish {W} (category_name done : string) (prefix : list event)
    (r : W * outcome unit) : W * list event * outcome unit :=
  match r with
  | (w, Return _) => (w, prefix ++ [Printed done], Return tt)
  | (w, Raise (ClientError msg)) =>
      (w, prefix ++ [Printed (manage_error_message category_name msg)],
       Return tt)
  | (w, Raise e) => (w, prefix, Raise e)
  end.




(** ** A failed listing read as an empty one *)

(** The directory [oc], except that [ou_id] owns no account directly. *)
Definition with_no_direct_accounts (oc : organizations_client)
    (ou_id : string) : organizations_client :=
  mk_organizations (list_roots oc)
    (fun parent =>
       if (parent =? ou_id)%string then mk_paginated [[]] None
       else list_accounts_for_parent oc parent)
    (list_children oc)
    (describe_organizational_unit oc).

(** A failed listing of the direct accounts of [ou_id] has the effect of
    the OU owning no account directly. *)
Definition failure_treated_as_no_direct_accounts
    (oc : organizations_client) (depth : nat) (ou_id : string) : Prop :=
  snd (get_accounts_by_ou oc depth ou_id)
  = snd (get_accounts_by_ou (with_no_direct_accounts oc ou_id) depth ou_id).

(** * The classification store *)

(** Modelled from the spec: the remote classification store is not part of
    the repository.  It holds named category definitions, each with a
    reference handle that the store assigns, an ordered rule set and a
    default value.  Listing returns the name and the handle of every
    definition in a single response; creating adds a definition under a
    handle that was never used; updating replaces the whole rule set of the
    definition that the handle refers to. *)
Record definition : Type := mk_definition {
  definition_Name : string;
  definition_Arn : string;
  definition_Rules : list rule;
  definition_DefaultValue : string
}.

Record store : Type := mk_store {
  definitions : list definition;
  handed_out : nat
}.

Definition arn_of (n : nat) : string :=
  "arn:aws:ce::123456789012:costcategory/"
    ++ NilEmpty.string_of_uint (Nat.to_uint n).

Definition reference_of (d : definition) : cost_category_reference :=
  mk_reference (definition_Name d) (definition_Arn d).

Definition has_arn (arn : string) (d : definition) : bool :=
  (definition_Arn d =? arn)%string.

Definition replace_rules (arn : string) (rules : list rule) (d : definition)
  : definition :=
  if has_arn arn d
  then mk_definition (definition_Name d) (definition_Arn d) rules
         (definition_DefaultValue d)
  else d.

Definition store_list (s : store) : store * outcome list_response :=
  (s, Return (mk_list_response (Some (map reference_of (definitions s))))).

Definition store_update (arn version : string) (rules : list rule) (s : store)
  : store * outcome unit :=
  if existsb (has_arn arn) (definitions s)
  then (mk_store (map (replace_rules arn rules) (definitions s))
          (handed_out s),
        Return tt)
  else (s, Raise (ClientError "ResourceNotFoundException")).

Definition store_create (name version : string) (rules : list rule)
    (default : string) (s : store) : store * outcome unit :=
  (mk_store
     (definitions s
        ++ [mk_definition name (arn_of (handed_out s)) rules default])
     (S (handed_out s)),
   Return tt).

Definition store_client : ce_client store :=
  mk_ce store store_list store_update store_create.

Definition is_named (name : string) (d : definition) : bool :=
  (definition_Name d =? name)%string.

(** The definitions of a store that carry a given name. *)
Definition named (name : string) (s : store) : list definition :=
  filter (is_named name) (definitions s).

(** Handles are the store's own and refer to one definition each; no two
    definitions share a name. *)
Record store_wf (s : store) : Prop := {
  arns_handed_out :
    forall d, In d (definitions s) ->
              exists k, k < handed_out s /\ definition_Arn d = arn_of k;
  arns_distinct : NoDup (map definition_Arn (definitions s));
  names_distinct : NoDup (map definition_Name (definitions s))
}.

(** The store after the reconciler has run on it. *)
Definition reconciled (ou_name : string) (account_ids : list string)
    (s : store) : store :=
  world_of
    (create_or_update_cost_category store_client ou_name account_ids s).

(** * Samples *)

(** ** A sample organization

    Root [r-root] with the top-level OUs Finance, Engineering and Sandbox;
    Finance has the nested OU Payroll.  Account 112 is suspended and
    Sandbox owns no account. *)

Definition acct_111 : account := mk_account "111" "ledger" "ACTIVE".
Definition acct_112 : account := mk_account "112" "archive" "SUSPENDED".
Definition acct_113 : account := mk_account "113" "salaries" "ACTIVE".
Definition acct_221 : account := mk_account "221" "build" "ACTIVE".
Definition acct_222 : account := mk_account "222" "staging" "ACTIVE".

Definition sample_accounts (ou_id : string) : paginated account :=
  if (ou_id =? "ou-finance")%string then
    mk_paginated [[acct_111; acct_112]] None
  else if (ou_id =? "ou-payroll")%string then
    mk_paginated [[acct_113]] None
  else if (ou_id =? "ou-engineering")%string then
    mk_paginated [[acct_221]; [acct_222]] None
  else mk_paginated [[]] None.

Definition sample_children (parent_id : string) : paginated child :=
  if (parent_id =? "r-root")%string then
    mk_paginated
      [[mk_child "ou-finance"; mk_child "ou-engineering"];
       [mk_child "ou-sandbox"]] None
  else if (parent_id =? "ou-finance")%string then
    mk_paginated [[mk_child "ou-payroll"]] None
  else mk_paginated [[]] None.

Definition sample_names (ou_id : string) : outcome string :=
  if (ou_id =? "ou-finance")%string then Return "Finance"
  else if (ou_id =? "ou-payroll")%string then Return "Payroll"
  else if (ou_id =? "ou-engineering")%string then Return "Engineering"
  else if (ou_id =? "ou-sandbox")%string then Return "Sandbox"
  else Raise (ClientError "OrganizationalUnitNotFoundException").

Definition sample_directory : organizations_client :=
  mk_organizations (Return [mk_root "r-root"])
    sample_accounts sample_children sample_names.

Definition finance_tree : ou_tree :=
  Node "ou-finance" [acct_111; acct_112]
    [Node "ou-payroll" [acct_113] []].

(** The sample organization when the accounts of Finance cannot be
    listed. *)
Definition denied_directory : organizations_client :=
  mk_organizations (Return [mk_root "r-root"])
    (fun ou_id =>
       if (ou_id =? "ou-finance")%string
       then mk_paginated [] (Some (ClientError "AccessDeniedException"))
       else sample_accounts ou_id)
    sample_children sample_names.

(** The sample organization when the listing of the child OUs of Finance
    fails after its first page. *)
Definition truncated_directory : organizations_client :=
  mk_organizations (Return [mk_root "r-root"])
    sample_accounts
    (fun parent_id =>
       if (parent_id =? "ou-finance")%string
       then mk_paginated [[mk_child "ou-payroll"]]
              (Some (ClientError "TooManyRequestsException"))
       else sample_children parent_id)
    sample_names.

(** The sample organization without a root. *)
Definition rootless_directory : organizations_client :=
  mk_organizations (Return []) sample_accounts sample_children sample_names.

(** The sample organization when the top-level OUs cannot be listed. *)
Definition unlistable_directory : organizations_client :=
  mk_organizations (Return [mk_root "r-root"]) sample_accounts
    (fun parent_id =>
       if (parent_id =? "r-root")%string
       then mk_paginated [] (Some (ClientError "AccessDeniedException"))
       else sample_children parent_id)
    sample_names.

(** ** Sample stores *)

Definition empty_store : store := mk_store [] 0.

(** A store that already holds the category of Finance, with rules of an
    earlier day. *)
Definition finance_store : store :=
  mk_store
    [mk_definition "OU-Finance" (arn_of 0)
       [mk_rule "Finance" "LINKED_ACCOUNT" ["999"] ["EQUALS"]] "Other"]
    1.

(** A classification store whose listing is refused while the flag is
    set; the refusal clears the flag. *)
Definition flaky_client : ce_client (bool * store) :=
  mk_ce (bool * store)
    (fun w =>
       if fst w
       then ((false, snd w), Raise (ClientError "ThrottlingException"))
       else ((false, fst (store_list (snd w))), snd (store_list (snd w))))
    (fun arn version rules w =>
       ((fst w, fst (store_update arn version rules (snd w))),
        snd (store_update arn version rules (snd w))))
    (fun name version rules default w =>
       ((fst w, fst (store_create name version rules default (snd w))),
        snd (store_create name version rules default (snd w)))).

(** A stand-in for [json.dumps] on the strings of the examples, which need
    no escaping: the text between quotation marks. *)
Definition quoted (s : string) : string :=
  String "034"%char (s ++ String "034"%char EmptyString).

(** * Further vocabulary *)

(** Two directories list the same accounts and child OUs, in the same
    order and with the same failures, whatever the page boundaries. *)
Definition same_listings (oc1 oc2 : organizations_client) : Prop :=
  forall ou_id,
    all_accounts oc1 ou_id = all_accounts oc2 ou_id
    /\ failure (list_accounts_for_parent oc1 ou_id)
       = failure (list_accounts_for_parent oc2 ou_id)
    /\ all_children oc1 ou_id = all_children oc2 ou_id
    /\ failure (list_children oc1 ou_id) = failure (list_children oc2 ou_id).

(** The two listings the collector uses. *)
Definition is_listing_call (c : call) : bool :=
  match c with
  | list_accounts_for_parent_call _ => true
  | list_children_call _ ChildType =>
      (ChildType =? "ORGANIZATIONAL_UNIT")%string
  | _ => false
  end.


(** The listings of a tree, each OU before its descendants. *)
Fixpoint tree_calls (t : ou_tree) : list call :=
  match t with
  | Node i _ kids =>
      list_accounts_for_parent_call i
        :: list_children_call i "ORGANIZATIONAL_UNIT"
        :: flat_map tree_calls kids
  end.

(** The trace of a call. *)
Definition events_of {A} (d : D A) : list event := fst d.

(** The sample organization with other page boundaries and a second
    root. *)
Definition repaginated_directory : organizations_client :=
  mk_organizations (Return [mk_root "r-root"; mk_root "r-spare"])
    (fun ou_id =>
       if (ou_id =? "ou-engineering")%string
       then mk_paginated [[]; [acct_221; acct_222]] None
       else sample_accounts ou_id)
    (fun parent_id =>
       if (parent_id =? "r-root")%string
       then mk_paginated
              [[mk_child "ou-finance"];
               [mk_child "ou-engineering"; mk_child "ou-sandbox"]] None
       else sample_children parent_id)
    sample_names.

(** The sample organization when the network fails while the accounts of
    Payroll are listed. *)
Definition unreachable_directory : organizations_client :=
  mk_organizations (Return [mk_root "r-root"])
    (fun ou_id =>
       if (ou_id =? "ou-payroll")%string
       then mk_paginated [] (Some (OtherError "EndpointConnectionError"))
       else sample_accounts ou_id)
    sample_children sample_names.


(** A classification store that cannot be reached. *)
Definition offline_client : ce_client unit :=
  mk_ce unit
    (fun w => (w, Raise (OtherError "EndpointConnectionError")))
    (fun _ _ _ w => (w, Raise (OtherError "EndpointConnectionError")))
    (fun _ _ _ _ w => (w, Raise (OtherError "EndpointConnectionError"))).

Definition is_describe_call (c : call) : bool :=
  match c with
  | describe_organizational_unit_call _ => true
  | _ => false
  end.

(** A call to the classification store that writes: it is the create or
    the update of the category of a top-level OU below [root_id] that has
    a display name and collected accounts, with the one rule built from
    them. *)
Definition targets_top_level_ou (oc : organizations_client) (depth : nat)
    (root_id : string) (c : call) : Prop :=
  let target name version rules :=
    exists ou,
      In ou (all_children oc root_id)
      /\ describe_organizational_unit oc (child_Id ou) = Return name
      /\ name <> EmptyString
      /\ version = "CostCategoryExpression.v1"
      /\ map Id (returned_list (get_accounts_by_ou oc depth (child_Id ou)))
         <> []
      /\ rules
         = [mk_rule name "LINKED_ACCOUNT"
              (map Id
                 (returned_list (get_accounts_by_ou oc depth (child_Id ou))))
              ["EQUALS"]] in
  match c with
  | update_cost_category_definition_call _ version rules =>
      exists name, target name version rules
  | create_cost_category_definition_call category version rules default =>
      exists name,
        target name version rules
        /\ category = ("OU-" ++ name)%string /\ default = "Other"
  | _ => True
  end.

(** Every definition of [s] is still in [s'], under its name and its
    handle and at its place. *)
Definition keeps_definitions (s s' : store) : Prop :=
  exists added,
    map reference_of (definitions s')
    = map reference_of (definitions s) ++ added.

(** The sample organization when the lookup of Finance returns an empty
    display name. *)
Definition unnamed_directory : organizations_client :=
  mk_organizations (Return [mk_root "r-root"]) sample_accounts sample_children
    (fun ou_id =>
       if (ou_id =? "ou-finance")%string then Return EmptyString
       else sample_names ou_id).

(** The sample organization when the listing of the top-level OUs fails
    after its first page. *)
Definition interrupted_directory : organizations_client :=
  mk_organizations (Return [mk_root "r-root"]) sample_accounts
    (fun parent_id =>
       if (parent_id =? "r-root")%string
       then mk_paginated
              [[mk_child "ou-finance"; mk_child "ou-engineering"]]
              (Some (ClientError "TooManyRequestsException"))
       else sample_children parent_id)
    sample_names.

(** The sample organization when the listing of the accounts of Finance
    fails after its first page. *)
Definition flickering_directory : organizations_client :=
  mk_organizations (Return [mk_root "r-root"])
    (fun ou_id =>
       if (ou_id =? "ou-finance")%string
       then mk_paginated [[acct_111; acct_112]]
              (Some (ClientError "TooManyRequestsException"))
       else sample_accounts ou_id)
    sample_children sample_names.

(** * Properties *)

Lemma for_each_app {S A} (body : A -> M S unit) (l1 l2 : list A) (s : S) :
  for_each body (l1 ++ l2) s = (for_each body l1 ;; for_each body l2) s.
Proof.
  revert s. induction l1 as [|x l1 IH]; intros s; simpl.
  - unfold bind, ret. simpl. destruct (for_each body l2 s) as [[s2 t2] r2].
    reflexivity.
  - unfold bind in *. destruct (body x s) as [[s1 t1] [[]|e]]; auto.
    rewrite IH.
    destruct (for_each body l1 s1) as [[s2 t2] [[]|e]]; auto.
    destruct (for_each body l2 s2) as [[s3 t3] r3].
    now rewrite app_assoc.
Qed.

Lemma for_each_concat {S A} (body : A -> M S unit) (ps : list (list A)) (s : S) :
  for_each (for_each body) ps s = for_each body (concat ps) s.
Proof.
  revert s. induction ps as [|p ps IH]; intros s; simpl; auto.
  rewrite for_each_app. unfold bind.
  destruct (for_each body p s) as [[s1 t1] [[]|e]]; auto.
  now rewrite IH.
Qed.

Lemma accounts_loop (l : list account) (accounts : list account_entry) :
  for_each append_if_active l accounts
  = (accounts ++ active_entries l, [], Return tt).
Proof.
  revert accounts. induction l as [|a l IH]; intros accounts; simpl.
  - unfold ret, active_entries. simpl. now rewrite app_nil_r.
  - unfold bind, append_if_active, active_entries, is_active. simpl.
    destruct (account_Status a =? "ACTIVE")%string; simpl.
    + rewrite IH. unfold active_entries, is_active. now rewrite <- app_assoc.
    + rewrite IH. reflexivity.
Qed.

Lemma get_accounts_by_ou_S (oc : organizations_client) (depth : nat)
    (ou_id : string) :
  get_accounts_by_ou oc (S depth) ou_id =
  let own := active_entries (all_accounts oc ou_id) in
  let listed := Called (list_accounts_for_parent_call ou_id) in
  let descended := Called (list_children_call ou_id "ORGANIZATIONAL_UNIT") in
  match failure (list_accounts_for_parent oc ou_id) with
  | Some (ClientError msg) =>
      ([listed; Printed (accounts_error_message ou_id msg)], Return own)
  | Some e => ([listed], Raise e)
  | None =>
      match children_loop (get_accounts_by_ou oc depth)
              (all_children oc ou_id) own with
      | (accounts, t, Return _) =>
          match failure (list_children oc ou_id) with
          | Some (ClientError msg) =>
              (listed :: descended :: t
                 ++ [Printed (children_error_message ou_id msg)],
               Return accounts)
          | Some e => (listed :: descended :: t, Raise e)
          | None => (listed :: descended :: t, Return accounts)
          end
      | (accounts, t, Raise (ClientError msg)) =>
          (listed :: descended :: t
             ++ [Printed (children_error_message ou_id msg)],
           Return accounts)
      | (accounts, t, Raise e) => (listed :: descended :: t, Raise e)
      end
  end.
Proof.
  simpl. unfold run_locals, get_accounts_by_ou_body, paginate.
  unfold bind at 1. unfold try_except_ClientError at 1.
  unfold bind at 1 2 3. unfold emit at 1. rewrite for_each_concat, accounts_loop.
  simpl. fold (all_accounts oc ou_id).
  destruct (failure (list_accounts_for_parent oc ou_id)) as [e|]; simpl.
  - destruct e; reflexivity.
  - unfold bind at 1. unfold try_except_ClientError at 1.
    unfold bind at 1 2. unfold emit at 1. rewrite for_each_concat.
    fold (all_children oc ou_id).
    change (for_each _ (all_children oc ou_id))
      with (children_loop (get_accounts_by_ou oc depth) (all_children oc ou_id)).
    destruct (children_loop _ _ _) as [[acc t] [[]|e]]; simpl.
    + destruct (failure (list_children oc ou_id)) as [e|]; simpl.
      * destruct e; simpl; rewrite ?app_nil_r; try reflexivity.
      * rewrite ?app_nil_r. reflexivity.
    + destruct e; simpl; rewrite ?app_nil_r; reflexivity.
Qed.

Lemma ou_tree_induction (P : ou_tree -> Prop) :
  (forall i accs kids, Forall P kids -> P (Node i accs kids)) ->
  forall t, P t.
Proof.
  intros step. fix IH 1. intros [i accs kids]. apply step.
  induction kids as [|k kids IHkids]; constructor; auto.
Qed.

Lemma represents_children oc i accs kids :
  represents oc (Node i accs kids) -> Forall (represents oc) kids.
Proof.
  intros (_ & _ & _ & _ & H). induction kids as [|k kids IH]; constructor.
  - apply H.
  - apply IH, H.
Qed.

Lemma height_child k kids :
  In k kids -> height k <= fold_right (fun k h => Nat.max (height k) h) 0 kids.
Proof.
  induction kids as [|k' kids IH]; simpl; intros Hin; [easy|].
  destruct Hin as [->|Hin]; [lia|]. specialize (IH Hin). lia.
Qed.


(** The loop over child OUs, when every call it makes returns. *)
Lemma children_loop_returns (self : string -> D (list account_entry))
    (result : string -> list account_entry) (children : list child)
    (accounts : list account_entry) :
  (forall c, In c children ->
     exists t, self (child_Id c) = (t, Return (result (child_Id c)))) ->
  exists t,
    children_loop self children accounts
    = (accounts ++ flat_map (fun c => result (child_Id c)) children,
       t, Return tt).
Proof.
  revert accounts. induction children as [|c cs IH]; intros accounts Hall.
  - exists []. simpl. unfold ret. now rewrite app_nil_r.
  - destruct (Hall c (or_introl eq_refl)) as [t Ht].
    destruct (IH (accounts ++ result (child_Id c))) as [t' Ht'].
    { intros c' Hc'. apply Hall. now right. }
    exists (t ++ t'). unfold children_loop in *. simpl.
    unfold bind at 1. unfold extend_with_child at 1. unfold bind at 1.
    unfold lift, modify. rewrite Ht. simpl. rewrite Ht'.
    now rewrite app_nil_r, <- app_assoc.
Qed.

Lemma flat_map_through_ids {B} (f : string -> list B) (g : ou_tree -> list B)
    (children : list child) (kids : list ou_tree) :
  map child_Id children = map node_id kids ->
  (forall k, In k kids -> f (node_id k) = g k) ->
  flat_map (fun c => f (child_Id c)) children = flat_map g kids.
Proof.
  revert kids. induction children as [|c cs IH]; intros [|k kids] Hmap Hfg;
    simpl in *; try discriminate; auto.
  injection Hmap as Hid Hmap. rewrite Hid, Hfg by now left.
  f_equal. apply IH; auto.
Qed.

Lemma active_entries_app l1 l2 :
  active_entries (l1 ++ l2) = active_entries l1 ++ active_entries l2.
Proof. unfold active_entries. now rewrite filter_app, map_app. Qed.

Lemma active_entries_flat_map {B} (f : B -> list account) (l : list B) :
  active_entries (flat_map f l) = flat_map (fun x => active_entries (f x)) l.
Proof.
  induction l as [|x l IH]; simpl; auto.
  now rewrite active_entries_app, IH.
Qed.




Lemma NoDup_map_injective_on {A B} (f : A -> B) (l : list A) (x y : A) :
  NoDup (map f l) -> In x l -> In y l -> f x = f y -> x = y.
Proof.
  induction l as [|z l IH]; simpl; intros Hnd Hx Hy Hf; [easy|].
  inversion Hnd as [|? ? Hz Hl]; subst.
  destruct Hx as [->|Hx], Hy as [->|Hy]; auto.
  - exfalso. apply Hz. rewrite Hf. now apply in_map.
  - exfalso. apply Hz. rewrite <- Hf. now apply in_map.
Qed.

Lemma map_Id_active_entries l :
  map Id (active_entries l) = map account_Id (filter is_active l).
Proof. unfold active_entries. rewrite map_map. reflexivity. Qed.




(** *** The collector on the sample organization *)

Example collect_finance :
  get_accounts_by_ou sample_directory 3 "ou-finance"
  = ([Called (list_accounts_for_parent_call "ou-finance");
      Called (list_children_call "ou-finance" "ORGANIZATIONAL_UNIT");
      Called (list_accounts_for_parent_call "ou-payroll");
      Called (list_children_call "ou-payroll" "ORGANIZATIONAL_UNIT")],
     Return [mk_entry "111" "ledger"; mk_entry "113" "salaries"]).
Proof. reflexivity. Qed.

Example collect_finance_too_deep :
  get_accounts_by_ou sample_directory 1 "ou-finance"
  = ([Called (list_accounts_for_parent_call "ou-finance");
      Called (list_children_call "ou-finance" "ORGANIZATIONAL_UNIT")],
     Raise (RecursionError recursion_message)).
Proof. reflexivity. Qed.

(** ** Failures inside the collector *)

Lemma children_loop_cons self c rest accounts :
  children_loop self (c :: rest) accounts =
  match self (child_Id c) with
  | (t, Return child_accounts) =>
      match children_loop self rest (accounts ++ child_accounts) with
      | (accounts', t', r) => (accounts', t ++ t', r)
      end
  | (t, Raise e) => (accounts, t, Raise e)
  end.
Proof.
  unfold children_loop. simpl. unfold bind at 1.
  unfold extend_with_child at 1. unfold bind at 1. unfold lift, modify.
  destruct (self (child_Id c)) as [t [r|e]]; simpl; auto.
  now rewrite app_nil_r.
Qed.

Lemma get_accounts_by_ou_returns oc depth ou_id :
  directory_client_errors_only oc ->
  nesting_within oc depth ou_id ->
  exists tr res, get_accounts_by_ou oc depth ou_id = (tr, Return res).
Proof.
  intros Herr. revert ou_id.
  induction depth as [|depth IH]; intros ou_id Hnest; [destruct Hnest|].
  rewrite get_accounts_by_ou_S. cbv zeta.
  destruct (failure (list_accounts_for_parent oc ou_id)) as [e|] eqn:Hfa.
  - apply (accounts_client_error _ Herr) in Hfa.
    destruct e; try discriminate. eauto.
  - destruct (children_loop_returns (get_accounts_by_ou oc depth)
                (fun i => returned_list (get_accounts_by_ou oc depth i))
                (all_children oc ou_id)
                (active_entries (all_accounts oc ou_id))) as [t Ht].
    + intros c Hc. destruct (IH _ (Hnest c Hc)) as (tr & res & Hrun).
      exists tr. unfold returned_list. now rewrite Hrun.
    + rewrite Ht.
      destruct (failure (list_children oc ou_id)) as [e|] eqn:Hfc; eauto.
      apply (children_client_error _ Herr) in Hfc.
      destruct e; try discriminate. eauto.
Qed.

(** C5, as the code has it.  When the listing of the direct accounts of an
    OU fails with a [ClientError], [get_accounts_by_ou] logs the error and
    returns at once the ACTIVE accounts of the pages delivered before the
    failure (possibly none); it does not list the child OUs of that OU.
    Nothing is raised, and the loop of a caller that was visiting this OU
    goes on with its remaining children. *)
Theorem accounts_listing_failure_recovered oc depth ou_id msg :
  0 < depth ->
  failure (list_accounts_for_parent oc ou_id) = Some (ClientError msg) ->
  let events :=
    [Called (list_accounts_for_parent_call ou_id);
     Printed (accounts_error_message ou_id msg)] in
  let collected := active_entries (all_accounts oc ou_id) in
  get_accounts_by_ou oc depth ou_id = (events, Return collected)
  /\ forall rest accounts,
       children_loop (get_accounts_by_ou oc depth)
         (mk_child ou_id :: rest) accounts
       = match children_loop (get_accounts_by_ou oc depth) rest
                 (accounts ++ collected) with
         | (accounts', t, r) => (accounts', events ++ t, r)
         end.
Proof.
  intros Hdepth Hfail events collected.
  assert (Hrun : get_accounts_by_ou oc depth ou_id
                 = (events, Return collected)).
  { destruct depth as [|depth]; [lia|].
    rewrite get_accounts_by_ou_S. cbv zeta. now rewrite Hfail. }
  split; [exact Hrun|].
  intros rest accounts. rewrite children_loop_cons. simpl child_Id.
  now rewrite Hrun.
Qed.

Lemma accounts_listing_failure_recovered_witness :
  get_accounts_by_ou denied_directory 3 "ou-finance"
  = ([Called (list_accounts_for_parent_call "ou-finance");
      Printed (accounts_error_message "ou-finance" "AccessDeniedException")],
     Return []).
Proof.
  apply (accounts_listing_failure_recovered denied_directory 3 "ou-finance"
           "AccessDeniedException").
  - lia.
  - reflexivity.
Defined.

(** C5, as stated, fails: Finance cannot list its accounts and its child
    OU Payroll owns the ACTIVE account 113.  Were the failure treated as
    Finance owning no account directly, 113 would be collected; the code
    returns nothing. *)
Lemma accounts_listing_failure_skips_children :
  failure (list_accounts_for_parent denied_directory "ou-finance")
  = Some (ClientError "AccessDeniedException")
  /\ snd (get_accounts_by_ou denied_directory 3 "ou-finance") = Return []
  /\ snd (get_accounts_by_ou
            (with_no_direct_accounts denied_directory "ou-finance")
            3 "ou-finance")
     = Return [entry_of acct_113]
  /\ ~ failure_treated_as_no_direct_accounts denied_directory 3 "ou-finance".
Proof.
  repeat split; try reflexivity.
  unfold failure_treated_as_no_direct_accounts. vm_compute. discriminate.
Qed.

(** C6.  When the listing of the child OUs of an OU fails with a
    [ClientError] (the direct accounts having been listed), the error is
    logged, no further child is visited, and [get_accounts_by_ou] returns
    the direct ACTIVE accounts of the OU followed by what the children
    delivered before the failure contributed.  Nothing is raised. *)
Theorem children_listing_failure_recovered oc depth ou_id msg :
  directory_client_errors_only oc ->
  nesting_within oc (S depth) ou_id ->
  failure (list_accounts_for_parent oc ou_id) = None ->
  failure (list_children oc ou_id) = Some (ClientError msg) ->
  exists t,
    get_accounts_by_ou oc (S depth) ou_id
    = (Called (list_accounts_for_parent_call ou_id)
         :: Called (list_children_call ou_id "ORGANIZATIONAL_UNIT")
         :: t ++ [Printed (children_error_message ou_id msg)],
       Return
         (active_entries (all_accounts oc ou_id)
            ++ flat_map
                 (fun c =>
                    returned_list (get_accounts_by_ou oc depth (child_Id c)))
                 (all_children oc ou_id))).
Proof.
  intros Herr Hnest Hfa Hfc.
  rewrite get_accounts_by_ou_S. cbv zeta. rewrite Hfa, Hfc.
  destruct (children_loop_returns (get_accounts_by_ou oc depth)
              (fun i => returned_list (get_accounts_by_ou oc depth i))
              (all_children oc ou_id)
              (active_entries (all_accounts oc ou_id))) as [t Ht].
  - intros c Hc.
    destruct (get_accounts_by_ou_returns oc depth (child_Id c) Herr
                (Hnest c Hc)) as (tr & res & Hrun).
    exists tr. unfold returned_list. now rewrite Hrun.
  - rewrite Ht. now exists t.
Qed.

Lemma truncated_directory_client_errors_only :
  directory_client_errors_only truncated_directory.
Proof.
  split; simpl.
  - intros e H. discriminate.
  - intros ou e. unfold sample_accounts.
    repeat match goal with |- context [if ?b then _ else _] => destruct b end;
      simpl; discriminate.
  - intros ou e. unfold sample_children.
    repeat match goal with |- context [if ?b then _ else _] => destruct b end;
      simpl; intros H; inversion H; reflexivity.
  - intros ou e. unfold sample_names.
    repeat match goal with |- context [if ?b then _ else _] => destruct b end;
      simpl; intros H; inversion H; reflexivity.
Defined.

Lemma children_listing_failure_recovered_witness :
  exists t,
    get_accounts_by_ou truncated_directory 2 "ou-finance"
    = (Called (list_accounts_for_parent_call "ou-finance")
         :: Called (list_children_call "ou-finance" "ORGANIZATIONAL_UNIT")
         :: t ++ [Printed (children_error_message "ou-finance"
                             "TooManyRequestsException")],
       Return [entry_of acct_111; entry_of acct_113]).
Proof.
  apply (children_listing_failure_recovered truncated_directory 1
           "ou-finance" "TooManyRequestsException").
  - exact truncated_directory_client_errors_only.
  - simpl. intros c [<-|[]]. simpl. intros c [].
  - reflexivity.
  - reflexivity.
Defined.

(** ** The reconciler *)

Lemma filter_find {A} (p : A -> bool) (l : list A) :
  filter p l = match find p l with
               | Some x => x :: tl (filter p l)
               | None => []
               end.
Proof.
  induction l as [|x l IH]; simpl; auto.
  destruct (p x); simpl; auto.
Qed.

Lemma existsb_find {A} (p : A -> bool) (l : list A) :
  existsb p l = match find p l with Some _ => true | None => false end.
Proof.
  induction l as [|x l IH]; simpl; auto.
  destruct (p x); simpl; auto.
Qed.

Lemma find_first {A} (p : A -> bool) (l : list A) (x : A) :
  find p l = Some x ->
  exists before after,
    l = before ++ x :: after /\ p x = true
    /\ forall y, In y before -> p y = false.
Proof.
  induction l as [|y l IH]; simpl; [discriminate|].
  destruct (p y) eqn:Hy.
  - intros [= ->]. exists [], l. simpl. tauto.
  - intros Hfind. destruct (IH Hfind) as (before & after & -> & Hx & Hb).
    exists (y :: before), after. simpl. repeat split; auto.
    intros z [<-|Hz]; auto.
Qed.

Lemma create_or_update_cost_category_unfold {W} (ce : ce_client W)
    ou_name account_ids w :
  create_or_update_cost_category ce ou_name account_ids w =
  let category_name := category_name_of ou_name in
  let rules := build_rules ou_name account_ids in
  let listed := Called list_cost_category_definitions_call in
  match list_cost_category_definitions ce w with
  | (w1, Return existing) =>
      match find (has_name category_name)
              (get_default (CostCategoryReferences existing)) with
      | Some cat =>
          let c := update_cost_category_definition_call
                     (CostCategoryArn cat) rule_version rules in
          finish category_name ("Updated cost category: " ++ category_name)
            [listed; Called c]
            (update_cost_category_definition ce (CostCategoryArn cat)
               rule_version rules w1)
      | None =>
          let c := create_cost_category_definition_call
                     category_name rule_version rules "Other" in
          finish category_name ("Created cost category: " ++ category_name)
            [listed; Called c]
            (create_cost_category_definition ce category_name
               rule_version rules "Other" w1)
      end
  | (w1, Raise (ClientError msg)) =>
      (w1, [listed; Printed (manage_error_message category_name msg)],
       Return tt)
  | (w1, Raise e) => (w1, [listed], Raise e)
  end.
Proof.
  unfold create_or_update_cost_category, try_except_ClientError.
  unfold bind at 1. unfold remote at 1.
  destruct (list_cost_category_definitions ce w) as [w1 [existing|e]].
  - rewrite existsb_find. destruct existing as [[refs|]];
      cbn [CostCategoryReferences get_default].
    + destruct (find _ refs) as [cat|] eqn:Hfind.
      * unfold bind at 1. unfold subscript_key. simpl.
        unfold bind at 1. rewrite filter_find, Hfind. simpl.
        unfold bind, remote, print, emit.
        destruct (update_cost_category_definition ce _ _ _ w1)
          as [w2 [[]|[]]]; reflexivity.
      * unfold bind, remote, print, emit.
        destruct (create_cost_category_definition ce _ _ _ _ w1)
          as [w2 [[]|[]]]; reflexivity.
    + simpl. unfold bind, remote, print, emit.
      destruct (create_cost_category_definition ce _ _ _ _ w1)
        as [w2 [[]|[]]]; reflexivity.
  - destruct e; reflexivity.
Qed.

(** C2.  Once the listing of the existing definitions has succeeded,
    [create_or_update_cost_category] issues, after that listing, exactly
    one further call to the store.  If a listed definition is named
    ["OU-" ++ ou_name], the call is an update with the handle of the first
    such definition and the one-rule rule set built from [ou_name] and
    [account_ids]; otherwise it is a create with that name, that rule set
    and the default value ["Other"]. *)
Theorem create_or_update_decision {W} (ce : ce_client W)
    ou_name account_ids w w1 existing :
  list_cost_category_definitions ce w = (w1, Return existing) ->
  let category_name := ("OU-" ++ ou_name)%string in
  let rules := [mk_rule ou_name "LINKED_ACCOUNT" account_ids ["EQUALS"]] in
  let listed := get_default (CostCategoryReferences existing) in
  let run := create_or_update_cost_category ce ou_name account_ids w in
  ((exists cat, In cat listed /\ reference_Name cat = category_name) ->
   exists before cat after,
     listed = before ++ cat :: after
     /\ reference_Name cat = category_name
     /\ (forall c, In c before -> reference_Name c <> category_name)
     /\ calls (trace_of run)
        = [list_cost_category_definitions_call;
           update_cost_category_definition_call (CostCategoryArn cat)
             "CostCategoryExpression.v1" rules]
     /\ world_of run
        = fst (update_cost_category_definition ce (CostCategoryArn cat)
                 "CostCategoryExpression.v1" rules w1))
  /\ ((forall cat, In cat listed -> reference_Name cat <> category_name) ->
      calls (trace_of run)
      = [list_cost_category_definitions_call;
         create_cost_category_definition_call category_name
           "CostCategoryExpression.v1" rules "Other"]
      /\ world_of run
         = fst (create_cost_category_definition ce category_name
                  "CostCategoryExpression.v1" rules "Other" w1)).
Proof.
  intros Hlist category_name rules listed run.
  assert (Hrun := create_or_update_cost_category_unfold ce ou_name
                    account_ids w).
  cbv zeta in Hrun. rewrite Hlist in Hrun. fold run in Hrun.
  change (category_name_of ou_name) with category_name in Hrun.
  change (build_rules ou_name account_ids) with rules in Hrun.
  change rule_version with "CostCategoryExpression.v1" in Hrun.
  fold listed in Hrun.
  destruct (find (has_name category_name) listed) as [cat|] eqn:Hfind.
  - split.
    + intros _. destruct (find_first _ _ _ Hfind)
        as (before & after & Hsplit & Hcat & Hbefore).
      exists before, cat, after. split; [exact Hsplit|].
      split; [now apply String.eqb_eq|]. split.
      * intros c Hc Hname. apply Hbefore in Hc. unfold has_name in Hc.
        rewrite Hname, String.eqb_refl in Hc. discriminate.
      * rewrite Hrun.
        destruct (update_cost_category_definition ce _ _ _ w1)
          as [w2 [[]|[]]]; split; reflexivity.
    + intros Hnone. exfalso. apply find_some in Hfind.
      destruct Hfind as [Hin Hname]. apply (Hnone cat Hin).
      now apply String.eqb_eq.
  - split.
    + intros (cat & Hin & Hname). exfalso.
      apply (find_none _ _ Hfind) in Hin. unfold has_name in Hin.
      rewrite Hname, String.eqb_refl in Hin. discriminate.
    + intros _. rewrite Hrun.
      destruct (create_cost_category_definition ce _ _ _ _ w1)
        as [w2 [[]|[]]]; split; reflexivity.
Qed.

Lemma create_or_update_decision_witness :
  calls (trace_of (create_or_update_cost_category store_client "Sales"
                     ["301"; "302"] finance_store))
  = [list_cost_category_definitions_call;
     create_cost_category_definition_call "OU-Sales"
       "CostCategoryExpression.v1"
       [mk_rule "Sales" "LINKED_ACCOUNT" ["301"; "302"] ["EQUALS"]] "Other"].
Proof.
  refine (proj1 (proj2 (create_or_update_decision store_client "Sales"
                          ["301"; "302"] finance_store finance_store
                          (mk_list_response
                             (Some (map reference_of
                                      (definitions finance_store))))
                          eq_refl) _)).
  simpl. intros cat [<-|[]]. simpl. discriminate.
Defined.

(** ** One top-level OU *)

Lemma calls_app t1 t2 : calls (t1 ++ t2) = calls t1 ++ calls t2.
Proof.
  induction t1 as [|[c|msg] t1 IH]; simpl; auto. now rewrite IH.
Qed.

Lemma classification_calls_app t1 t2 :
  classification_calls (t1 ++ t2)
  = classification_calls t1 ++ classification_calls t2.
Proof. unfold classification_calls. now rewrite calls_app, filter_app. Qed.

Lemma children_loop_directory_only self children accounts :
  (forall i, classification_calls (fst (self i)) = []) ->
  classification_calls (trace_of (children_loop self children accounts)) = [].
Proof.
  intros Hself. revert accounts.
  induction children as [|c cs IH]; intros accounts; [reflexivity|].
  rewrite children_loop_cons. specialize (Hself (child_Id c)).
  destruct (self (child_Id c)) as [t [r|e]]; simpl in Hself.
  - specialize (IH (accounts ++ r)).
    destruct (children_loop self cs (accounts ++ r)) as [[a t'] o].
    unfold trace_of in *. simpl in *.
    now rewrite classification_calls_app, Hself, IH.
  - exact Hself.
Qed.

Lemma get_accounts_by_ou_directory_only oc depth ou_id :
  classification_calls (fst (get_accounts_by_ou oc depth ou_id)) = [].
Proof.
  revert ou_id. induction depth as [|depth IH]; intros ou_id; [reflexivity|].
  rewrite get_accounts_by_ou_S. cbv zeta.
  destruct (failure (list_accounts_for_parent oc ou_id)) as [[]|];
    try reflexivity.
  pose proof (children_loop_directory_only (get_accounts_by_ou oc depth)
                (all_children oc ou_id)
                (active_entries (all_accounts oc ou_id)) IH) as Hloop.
  destruct (children_loop _ _ _) as [[a t] o]. unfold trace_of in Hloop.
  simpl in Hloop.
  assert (Hmore : forall msg, classification_calls (t ++ [Printed msg]) = []).
  { intros msg. now rewrite classification_calls_app, Hloop. }
  destruct o as [[]|[]]; simpl;
    destruct (failure (list_children oc ou_id)) as [[]|]; simpl;
    try exact Hloop; apply Hmore.
Qed.

Lemma get_ou_details_unfold oc ou_id :
  get_ou_details oc ou_id =
  let described := Called (describe_organizational_unit_call ou_id) in
  match describe_organizational_unit oc ou_id with
  | Return name => ([described], Return (Some name))
  | Raise (ClientError msg) =>
      ([described; Printed (details_error_message ou_id msg)], Return None)
  | Raise e => ([described], Raise e)
  end.
Proof.
  unfold get_ou_details, run_locals, try_except_ClientError, bind, remote.
  destruct (describe_organizational_unit oc ou_id) as [name|[]]; reflexivity.
Qed.

Lemma lambda_handler_ou_unfold {W} oc (ce : ce_client W) depth ou w :
  lambda_handler_ou oc ce depth ou w =
  match get_ou_details oc (child_Id ou) with
  | (t0, Raise e) => (w, t0, Raise e)
  | (t0, Return ou_name) =>
      match truthy_name ou_name with
      | None => (w, t0, Return tt)
      | Some ou_name =>
          match get_accounts_by_ou oc depth (child_Id ou) with
          | (t1, Raise e) => (w, t0 ++ t1, Raise e)
          | (t1, Return accounts) =>
              match map Id accounts with
              | [] => (w, t0 ++ t1, Return tt)
              | account_ids =>
                  match create_or_update_cost_category ce ou_name
                          account_ids w with
                  | (w2, t2, r) => (w2, t0 ++ t1 ++ t2, r)
                  end
              end
          end
      end
  end.
Proof.
  unfold lambda_handler_ou. unfold bind at 1. unfold lift at 1.
  destruct (get_ou_details oc (child_Id ou)) as [t0 [ou_name|e]]; simpl; auto.
  destruct (truthy_name ou_name) as [name|]; simpl.
  - unfold bind at 1. unfold lift at 1.
    destruct (get_accounts_by_ou oc depth (child_Id ou))
      as [t1 [accounts|e]]; simpl; auto.
    destruct (map Id accounts) as [|i ids]; simpl.
    + now rewrite !app_nil_r.
    + destruct (create_or_update_cost_category ce name (i :: ids) w)
        as [[w2 t2] r]. reflexivity.
  - now rewrite app_nil_r.
Qed.

(** C4.  When the accounts collected for a top-level OU are none, the
    handling of that OU addresses no call at all to the classification
    store (no listing, no create, no update) and leaves it as it was. *)
Theorem empty_ou_issues_no_classification_call {W} oc (ce : ce_client W)
    depth ou w tr accounts :
  get_accounts_by_ou oc depth (child_Id ou) = (tr, Return accounts) ->
  map Id accounts = [] ->
  classification_calls (trace_of (lambda_handler_ou oc ce depth ou w)) = []
  /\ world_of (lambda_handler_ou oc ce depth ou w) = w.
Proof.
  intros Hrun Hempty. rewrite lambda_handler_ou_unfold, Hrun, Hempty.
  pose proof (get_accounts_by_ou_directory_only oc depth (child_Id ou))
    as Htr. rewrite Hrun in Htr. simpl in Htr.
  rewrite get_ou_details_unfold. cbv zeta.
  destruct (describe_organizational_unit oc (child_Id ou)) as [name|[]];
    try (split; reflexivity).
  destruct name as [|a name]; simpl; [split; reflexivity|].
  unfold trace_of. simpl. split; [|reflexivity].
  change (Called (describe_organizational_unit_call (child_Id ou)) :: tr)
    with ([Called (describe_organizational_unit_call (child_Id ou))] ++ tr).
  now rewrite classification_calls_app, Htr.
Qed.

Lemma empty_ou_issues_no_classification_call_witness :
  classification_calls
    (trace_of (lambda_handler_ou sample_directory store_client 3
                 (mk_child "ou-sandbox") finance_store)) = []
  /\ world_of (lambda_handler_ou sample_directory store_client 3
                 (mk_child "ou-sandbox") finance_store) = finance_store.
Proof.
  apply (empty_ou_issues_no_classification_call sample_directory store_client
           3 (mk_child "ou-sandbox") finance_store
           [Called (list_accounts_for_parent_call "ou-sandbox");
            Called (list_children_call "ou-sandbox" "ORGANIZATIONAL_UNIT")]
           []).
  - reflexivity.
  - reflexivity.
Defined.

Lemma for_each_split {S A} (body : A -> M S unit) pre x post (s : S) :
  for_each body (pre ++ x :: post) s =
  match for_each body pre s with
  | (s1, t1, Return _) =>
      match body x s1 with
      | (s2, t2, Return _) =>
          match for_each body post s2 with
          | (s3, t3, r) => (s3, t1 ++ t2 ++ t3, r)
          end
      | (s2, t2, Raise e) => (s2, t1 ++ t2, Raise e)
      end
  | (s1, t1, Raise e) => (s1, t1, Raise e)
  end.
Proof.
  rewrite for_each_app. unfold bind at 1.
  destruct (for_each body pre s) as [[s1 t1] [[]|e]]; auto.
  simpl. unfold bind.
  destruct (body x s1) as [[s2 t2] [[]|e]]; auto.
  destruct (for_each body post s2) as [[s3 t3] r]. reflexivity.
Qed.

(** C8.  When the lookup of the display name of a top-level OU fails with
    a [ClientError], the handling of that OU consists of the lookup and a
    log line: neither the collector nor the classification store is
    called, nothing is raised, and the loop goes on with the top-level OUs
    that follow. *)
Theorem describe_failure_skips_ou {W} oc (ce : ce_client W) depth ou msg :
  describe_organizational_unit oc (child_Id ou) = Raise (ClientError msg) ->
  let skipped :=
    [Called (describe_organizational_unit_call (child_Id ou));
     Printed (details_error_message (child_Id ou) msg)] in
  (forall w, lambda_handler_ou oc ce depth ou w = (w, skipped, Return tt))
  /\ forall before after w,
       for_each (lambda_handler_ou oc ce depth) (before ++ ou :: after) w =
       match for_each (lambda_handler_ou oc ce depth) before w with
       | (w1, t1, Return _) =>
           match for_each (lambda_handler_ou oc ce depth) after w1 with
           | (w2, t2, r) => (w2, t1 ++ skipped ++ t2, r)
           end
       | (w1, t1, Raise e) => (w1, t1, Raise e)
       end.
Proof.
  intros Hfail skipped.
  assert (Hbody : forall w,
            lambda_handler_ou oc ce depth ou w = (w, skipped, Return tt)).
  { intros w. rewrite lambda_handler_ou_unfold, get_ou_details_unfold.
    cbv zeta. now rewrite Hfail. }
  split; [exact Hbody|].
  intros before after w. rewrite for_each_split.
  destruct (for_each _ before w) as [[w1 t1] [[]|e]]; auto.
  now rewrite Hbody.
Qed.

Lemma describe_failure_skips_ou_witness :
  lambda_handler_ou sample_directory store_client 3 (mk_child "ou-unknown")
    finance_store
  = (finance_store,
     [Called (describe_organizational_unit_call "ou-unknown");
      Printed (details_error_message "ou-unknown"
                 "OrganizationalUnitNotFoundException")],
     Return tt).
Proof.
  apply (describe_failure_skips_ou sample_directory store_client 3
           (mk_child "ou-unknown") "OrganizationalUnitNotFoundException").
  reflexivity.
Defined.

(** ** The whole run *)

Section Run.

Variable json_dumps : string -> string.

Lemma lambda_handler_try_unfold {W} oc (ce : ce_client W) depth w :
  lambda_handler_try json_dumps oc ce depth w =
  let listed := Called list_roots_call in
  match list_roots oc with
  | Return (first_root :: _) =>
      let root_id := root_Id first_root in
      let enumerated :=
        Called (list_children_call root_id "ORGANIZATIONAL_UNIT") in
      match for_each (lambda_handler_ou oc ce depth)
              (all_children oc root_id) w with
      | (w1, t, Return _) =>
          match failure (list_children oc root_id) with
          | None =>
              (w1, listed :: enumerated :: t,
               Return (mk_response 200 (json_dumps success_text)))
          | Some e => (w1, listed :: enumerated :: t, Raise e)
          end
      | (w1, t, Raise e) => (w1, listed :: enumerated :: t, Raise e)
      end
  | Return [] => (w, [listed], Raise (IndexError "list index out of range"))
  | Raise e => (w, [listed], Raise e)
  end.
Proof.
  unfold lambda_handler_try. unfold bind at 1. unfold remote at 1.
  destruct (list_roots oc) as [[|first_root roots]|e]; try reflexivity.
  unfold bind at 1. simpl subscript_0. unfold ret at 1.
  unfold bind at 1. unfold paginate. unfold bind at 1 2. unfold emit at 1.
  rewrite for_each_concat. fold (all_children oc (root_Id first_root)).
  destruct (for_each _ _ w) as [[w1 t] [[]|e]]; simpl; auto.
  destruct (failure (list_children oc (root_Id first_root))) as [e|];
    simpl; now rewrite !app_nil_r.
Qed.

Lemma lambda_handler_unfold {W} oc (ce : ce_client W) depth w :
  lambda_handler json_dumps oc ce depth w =
  match lambda_handler_try json_dumps oc ce depth w with
  | (w1, t, Raise (ClientError msg)) =>
      (w1, t ++ [Printed ("Error in lambda execution: " ++ msg)],
       Return (mk_response 500 (json_dumps ("Error: " ++ msg))))
  | r => r
  end.
Proof.
  unfold lambda_handler, try_except_ClientError.
  destruct (lambda_handler_try json_dumps oc ce depth w)
    as [[w1 t] [r|[]]]; reflexivity.
Qed.

End Run.

(** *** What can escape *)

Lemma get_accounts_by_ou_escapes oc depth ou_id e :
  snd (get_accounts_by_ou oc depth ou_id) = Raise e ->
  is_ClientError e = false.
Proof.
  destruct depth as [|depth].
  - simpl. intros [= <-]. reflexivity.
  - rewrite get_accounts_by_ou_S. cbv zeta.
    destruct (failure (list_accounts_for_parent oc ou_id)) as [[]|]; simpl;
      try discriminate; try (intros [= <-]; reflexivity).
    destruct (children_loop _ _ _) as [[a t] [[]|[]]]; simpl;
      try discriminate; try (intros [= <-]; reflexivity).
    destruct (failure (list_children oc ou_id)) as [[]|]; simpl;
      try discriminate; try (intros [= <-]; reflexivity).
Qed.

Lemma get_ou_details_escapes oc ou_id e :
  snd (get_ou_details oc ou_id) = Raise e -> is_ClientError e = false.
Proof.
  rewrite get_ou_details_unfold. cbv zeta.
  destruct (describe_organizational_unit oc ou_id) as [name|[]]; simpl;
    try discriminate; intros [= <-]; reflexivity.
Qed.

Lemma create_or_update_cost_category_escapes {W} (ce : ce_client W)
    ou_name account_ids w e :
  outcome_of (create_or_update_cost_category ce ou_name account_ids w)
  = Raise e ->
  is_ClientError e = false.
Proof.
  rewrite create_or_update_cost_category_unfold. cbv zeta.
  destruct (list_cost_category_definitions ce w) as [w1 [existing|e1]].
  - destruct (find _ _) as [cat|].
    + destruct (update_cost_category_definition ce _ _ _ w1)
        as [w2 [[]|[]]]; simpl; try discriminate;
        intros [= <-]; reflexivity.
    + destruct (create_cost_category_definition ce _ _ _ _ w1)
        as [w2 [[]|[]]]; simpl; try discriminate;
        intros [= <-]; reflexivity.
  - destruct e1; simpl; try discriminate; intros [= <-]; reflexivity.
Qed.

Lemma lambda_handler_ou_escapes {W} oc (ce : ce_client W) depth ou w e :
  outcome_of (lambda_handler_ou oc ce depth ou w) = Raise e ->
  is_ClientError e = false.
Proof.
  rewrite lambda_handler_ou_unfold.
  pose proof (get_ou_details_escapes oc (child_Id ou)) as Hd.
  destruct (get_ou_details oc (child_Id ou)) as [t0 [name|e0]]; simpl in *.
  - destruct (truthy_name name) as [n|]; simpl; try discriminate.
    pose proof (get_accounts_by_ou_escapes oc depth (child_Id ou)) as Ha.
    destruct (get_accounts_by_ou oc depth (child_Id ou))
      as [t1 [accounts|e1]]; simpl in *.
    + destruct (map Id accounts) as [|i ids]; simpl; try discriminate.
      pose proof (create_or_update_cost_category_escapes ce n (i :: ids) w)
        as Hc.
      destruct (create_or_update_cost_category ce n (i :: ids) w)
        as [[w2 t2] r]. exact (Hc e).
    + intros [= <-]. now apply Ha.
  - intros [= <-]. now apply Hd.
Qed.

Lemma for_each_escapes {S A} (body : A -> M S unit) (l : list A) s e :
  (forall x s e, outcome_of (body x s) = Raise e -> is_ClientError e = false) ->
  outcome_of (for_each body l s) = Raise e -> is_ClientError e = false.
Proof.
  intros Hbody. revert s. induction l as [|x l IH]; intros s; simpl.
  - discriminate.
  - unfold bind. specialize (Hbody x s).
    destruct (body x s) as [[s1 t1] [[]|e1]]; simpl in *.
    + specialize (IH s1). destruct (for_each body l s1) as [[s2 t2] r].
      exact IH.
    + intros [= <-]. now apply Hbody.
Qed.

(** *** What returns *)

Lemma create_or_update_cost_category_returns {W} (ce : ce_client W)
    ou_name account_ids w :
  ce_client_errors_only ce ->
  outcome_of (create_or_update_cost_category ce ou_name account_ids w)
  = Return tt.
Proof.
  intros Herr.
  destruct (outcome_of (create_or_update_cost_category ce ou_name
                          account_ids w)) as [[]|e] eqn:Hrun; auto.
  pose proof (create_or_update_cost_category_escapes _ _ _ _ _ Hrun) as Hesc.
  rewrite create_or_update_cost_category_unfold in Hrun. cbv zeta in Hrun.
  pose proof (list_client_error _ Herr w) as Hl.
  destruct (list_cost_category_definitions ce w) as [w1 [existing|e1]].
  - destruct (find _ _) as [cat|].
    + pose proof (update_client_error _ Herr (CostCategoryArn cat)
                    rule_version (build_rules ou_name account_ids) w1) as Hu.
      destruct (update_cost_category_definition ce _ _ _ w1)
        as [w2 [[]|e2]]; simpl in *; try discriminate.
      specialize (Hu e2 eq_refl). destruct e2; try discriminate.
    + pose proof (create_client_error _ Herr (category_name_of ou_name)
                    rule_version (build_rules ou_name account_ids)
                    "Other" w1) as Hc.
      destruct (create_cost_category_definition ce _ _ _ _ w1)
        as [w2 [[]|e2]]; simpl in *; try discriminate.
      specialize (Hc e2 eq_refl). destruct e2; try discriminate.
  - simpl in Hl. specialize (Hl e1 eq_refl). destruct e1; try discriminate.
Qed.

Lemma lambda_handler_ou_returns {W} oc (ce : ce_client W) depth ou w :
  directory_client_errors_only oc ->
  ce_client_errors_only ce ->
  nesting_within oc depth (child_Id ou) ->
  outcome_of (lambda_handler_ou oc ce depth ou w) = Return tt.
Proof.
  intros Hdir Hce Hnest. rewrite lambda_handler_ou_unfold.
  rewrite get_ou_details_unfold. cbv zeta.
  pose proof (describe_client_error _ Hdir (child_Id ou)) as Hd.
  destruct (describe_organizational_unit oc (child_Id ou)) as [name|e].
  - destruct (truthy_name (Some name)) as [n|]; auto.
    destruct (get_accounts_by_ou_returns oc depth (child_Id ou) Hdir Hnest)
      as (tr & res & Hrun).
    rewrite Hrun. destruct (map Id res) as [|i ids]; auto.
    pose proof (create_or_update_cost_category_returns ce n (i :: ids) w Hce)
      as Hc.
    destruct (create_or_update_cost_category ce n (i :: ids) w)
      as [[w2 t2] r]. exact Hc.
  - specialize (Hd e eq_refl). destruct e; try discriminate. reflexivity.
Qed.

Lemma for_each_returns {S A} (body : A -> M S unit) (l : list A) s :
  (forall x s, In x l -> outcome_of (body x s) = Return tt) ->
  outcome_of (for_each body l s) = Return tt.
Proof.
  revert s. induction l as [|x l IH]; intros s Hbody; simpl; auto.
  unfold bind. pose proof (Hbody x s (or_introl eq_refl)) as Hx.
  destruct (body x s) as [[s1 t1] [[]|e1]]; simpl in *; try discriminate.
  assert (Hl : outcome_of (for_each body l s1) = Return tt).
  { apply IH. intros y s' Hy. apply Hbody. now right. }
  destruct (for_each body l s1) as [[s2 t2] r]. exact Hl.
Qed.

(** *** The sample clients are well formed *)

Ltac by_cases_on_ids :=
  repeat match goal with
         | |- context [if ?b then _ else _] => destruct b
         end;
  simpl; intros; try discriminate;
  repeat match goal with
         | H : Some _ = Some _ |- _ => inversion H; clear H; subst
         | H : Raise _ = Raise _ |- _ => inversion H; clear H; subst
         end;
  try reflexivity.

Lemma sample_directory_client_errors_only :
  directory_client_errors_only sample_directory.
Proof.
  split; simpl.
  - intros e H. discriminate.
  - intros ou e. unfold sample_accounts. by_cases_on_ids.
  - intros ou e. unfold sample_children. by_cases_on_ids.
  - intros ou e. unfold sample_names. by_cases_on_ids.
Defined.

Lemma unlistable_directory_client_errors_only :
  directory_client_errors_only unlistable_directory.
Proof.
  split; simpl.
  - intros e H. discriminate.
  - intros ou e. unfold sample_accounts. by_cases_on_ids.
  - intros ou e. unfold sample_children. by_cases_on_ids.
  - intros ou e. unfold sample_names. by_cases_on_ids.
Defined.

Lemma store_client_errors_only : ce_client_errors_only store_client.
Proof.
  split; simpl.
  - intros w e H. discriminate.
  - intros arn version rules w e. unfold store_update. by_cases_on_ids.
  - intros name version rules default w e H. discriminate.
Defined.

Lemma flaky_client_errors_only : ce_client_errors_only flaky_client.
Proof.
  split; simpl.
  - intros [flag s] e. simpl. by_cases_on_ids.
  - intros arn version rules [flag s] e. simpl. unfold store_update.
    by_cases_on_ids.
  - intros name version rules default w e H. discriminate.
Defined.

Lemma sample_nesting ou :
  In ou (all_children sample_directory "r-root") ->
  nesting_within sample_directory 3 (child_Id ou).
Proof.
  intros [<-|[<-|[<-|[]]]]; simpl.
  - intros c [<-|[]]. simpl. intros c [].
  - intros c [].
  - intros c [].
Defined.

(** *** Claims about the run *)

(** C7.  A [ClientError] of the classification store never leaves
    [create_or_update_cost_category].  Hence, whatever the store refused
    while the top-level OUs [before] were handled, the loop reaches the
    next top-level OU [ou] and handles it in the world the earlier ones
    left; when [ou] has a name and collected accounts, this is a call of
    the reconciler with that name and those account ids. *)
Theorem reconciliation_failures_are_isolated {W} oc (ce : ce_client W)
    depth before ou after w :
  directory_client_errors_only oc ->
  ce_client_errors_only ce ->
  (forall o, In o before -> nesting_within oc depth (child_Id o)) ->
  (forall ou_name account_ids w',
     outcome_of (create_or_update_cost_category ce ou_name account_ids w')
     = Return tt)
  /\ exists w1 t1,
       for_each (lambda_handler_ou oc ce depth) before w = (w1, t1, Return tt)
       /\ for_each (lambda_handler_ou oc ce depth) (before ++ ou :: after) w
          = match lambda_handler_ou oc ce depth ou w1 with
            | (w2, t2, Return _) =>
                match for_each (lambda_handler_ou oc ce depth) after w2 with
                | (w3, t3, r) => (w3, t1 ++ t2 ++ t3, r)
                end
            | (w2, t2, Raise e) => (w2, t1 ++ t2, Raise e)
            end
       /\ forall ou_name tr accounts,
            describe_organizational_unit oc (child_Id ou) = Return ou_name ->
            ou_name <> EmptyString ->
            get_accounts_by_ou oc depth (child_Id ou)
            = (tr, Return accounts) ->
            map Id accounts <> [] ->
            lambda_handler_ou oc ce depth ou w1
            = match create_or_update_cost_category ce ou_name
                      (map Id accounts) w1 with
              | (w2, t2, r) =>
                  (w2,
                   Called (describe_organizational_unit_call (child_Id ou))
                     :: tr ++ t2,
                   r)
              end.
Proof.
  intros Hdir Hce Hnest. split.
  - intros ou_name account_ids w'.
    now apply create_or_update_cost_category_returns.
  - assert (Hbefore : outcome_of
                        (for_each (lambda_handler_ou oc ce depth) before w)
                      = Return tt).
    { apply for_each_returns. intros o s Ho.
      apply lambda_handler_ou_returns; auto. }
    pose proof (for_each_split (lambda_handler_ou oc ce depth) before ou
                  after w) as Hsplit.
    destruct (for_each (lambda_handler_ou oc ce depth) before w)
      as [[w1 t1] r]. simpl in Hbefore. subst r.
    exists w1, t1. split; [reflexivity|]. split; [exact Hsplit|].
    intros ou_name tr accounts Hname Hnonempty Hrun Hids.
    rewrite lambda_handler_ou_unfold, get_ou_details_unfold. cbv zeta.
    rewrite Hname, Hrun.
    destruct ou_name as [|a ou_name]; [congruence|]. simpl truthy_name.
    destruct (map Id accounts) as [|i ids]; [congruence|]. reflexivity.
Qed.

Lemma reconciliation_failures_are_isolated_witness :
  world_of
    (for_each (lambda_handler_ou sample_directory flaky_client 3)
       [mk_child "ou-finance"; mk_child "ou-engineering"]
       (true, empty_store))
  = (false,
     mk_store
       [mk_definition "OU-Engineering" (arn_of 0)
          [mk_rule "Engineering" "LINKED_ACCOUNT" ["221"; "222"] ["EQUALS"]]
          "Other"]
       1).
Proof.
  destruct (reconciliation_failures_are_isolated sample_directory
              flaky_client 3 [mk_child "ou-finance"]
              (mk_child "ou-engineering") [] (true, empty_store)
              sample_directory_client_errors_only flaky_client_errors_only)
    as (_ & w1 & t1 & Hbefore & Hall & _).
  - intros o [<-|[]]. apply sample_nesting. simpl. auto.
  - change ([mk_child "ou-finance"; mk_child "ou-engineering"])
      with ([mk_child "ou-finance"] ++ mk_child "ou-engineering" :: []).
    rewrite Hall. vm_compute in Hbefore. injection Hbefore as <- _.
    vm_compute. reflexivity.
Defined.

Section Outcome.

Variable json_dumps : string -> string.

(** C9.  A [ClientError] raised by the listing of the roots, or by the
    listing of the top-level OUs, turns into the response with status 500
    whose body is the JSON text of ["Error: "] followed by the text of the
    error.  When both listings succeed the response has status 200,
    whatever the directory or the classification store refused while the
    individual OUs were handled. *)
Theorem run_outcome {W} oc (ce : ce_client W) depth w :
  (forall msg,
     list_roots oc = Raise (ClientError msg) ->
     lambda_handler json_dumps oc ce depth w
     = (w,
        [Called list_roots_call;
         Printed ("Error in lambda execution: " ++ msg)],
        Return (mk_response 500 (json_dumps ("Error: " ++ msg)))))
  /\ (forall first_root roots,
        list_roots oc = Return (first_root :: roots) ->
        directory_client_errors_only oc ->
        ce_client_errors_only ce ->
        (forall ou, In ou (all_children oc (root_Id first_root)) ->
                    nesting_within oc depth (child_Id ou)) ->
        (forall msg,
           failure (list_children oc (root_Id first_root))
           = Some (ClientError msg) ->
           outcome_of (lambda_handler json_dumps oc ce depth w)
           = Return (mk_response 500 (json_dumps ("Error: " ++ msg))))
        /\ (failure (list_children oc (root_Id first_root)) = None ->
            outcome_of (lambda_handler json_dumps oc ce depth w)
            = Return
                (mk_response 200
                   (json_dumps "Cost categories updated successfully")))).
Proof.
  split.
  - intros msg Hroots.
    rewrite lambda_handler_unfold, lambda_handler_try_unfold. cbv zeta.
    now rewrite Hroots.
  - intros first_root roots Hroots Hdir Hce Hnest.
    assert (Hloop : outcome_of
                      (for_each (lambda_handler_ou oc ce depth)
                         (all_children oc (root_Id first_root)) w)
                    = Return tt).
    { apply for_each_returns. intros o s Ho.
      apply lambda_handler_ou_returns; auto. }
    rewrite lambda_handler_unfold, lambda_handler_try_unfold. cbv zeta.
    rewrite Hroots.
    destruct (for_each _ _ w) as [[w1 t] r]. simpl in Hloop. subst r.
    split.
    + intros msg Hfail. now rewrite Hfail.
    + intros Hfail. now rewrite Hfail.
Qed.

(** C10.  Only a [ClientError] is turned into a failure response.  When
    the listing of the roots returns no root, the handler raises
    [IndexError]; whatever exception other than a [ClientError] is raised
    inside the [try] block (by a remote call, by the interpreter or while
    a top-level OU is handled) leaves the handler as it is; and no
    [ClientError] ever leaves it. *)
Theorem non_client_errors_escape {W} oc (ce : ce_client W) depth w :
  (list_roots oc = Return [] ->
   lambda_handler json_dumps oc ce depth w
   = (w, [Called list_roots_call],
      Raise (IndexError "list index out of range")))
  /\ (forall e,
        is_ClientError e = false ->
        outcome_of (lambda_handler_try json_dumps oc ce depth w) = Raise e ->
        lambda_handler json_dumps oc ce depth w
        = lambda_handler_try json_dumps oc ce depth w)
  /\ (forall e,
        is_ClientError e = false ->
        list_roots oc = Raise e ->
        outcome_of (lambda_handler json_dumps oc ce depth w) = Raise e)
  /\ (forall first_root roots e,
        list_roots oc = Return (first_root :: roots) ->
        outcome_of
          (for_each (lambda_handler_ou oc ce depth)
             (all_children oc (root_Id first_root)) w)
        = Raise e ->
        is_ClientError e = false
        /\ outcome_of (lambda_handler json_dumps oc ce depth w) = Raise e)
  /\ (forall e,
        outcome_of (lambda_handler json_dumps oc ce depth w) = Raise e ->
        is_ClientError e = false)
  /\ (forall r,
        outcome_of (lambda_handler json_dumps oc ce depth w) = Return r ->
        statusCode r = 500 ->
        exists msg,
          outcome_of (lambda_handler_try json_dumps oc ce depth w)
          = Raise (ClientError msg)).
Proof.
  assert (Hbody : forall x s e,
            outcome_of (lambda_handler_ou oc ce depth x s) = Raise e ->
            is_ClientError e = false).
  { intros x s e. apply lambda_handler_ou_escapes. }
  split; [|split; [|split; [|split; [|split]]]].
  - intros Hroots.
    rewrite lambda_handler_unfold, lambda_handler_try_unfold. cbv zeta.
    now rewrite Hroots.
  - intros e He Htry. rewrite lambda_handler_unfold.
    destruct (lambda_handler_try json_dumps oc ce depth w) as [[w1 t] r].
    simpl in Htry. subst r. destruct e; try discriminate; reflexivity.
  - intros e He Hroots.
    rewrite lambda_handler_unfold, lambda_handler_try_unfold. cbv zeta.
    rewrite Hroots. destruct e; try discriminate; reflexivity.
  - intros first_root roots e Hroots Hloop.
    pose proof (for_each_escapes _ _ _ _ Hbody Hloop) as He.
    split; [exact He|].
    rewrite lambda_handler_unfold, lambda_handler_try_unfold. cbv zeta.
    rewrite Hroots. destruct (for_each _ _ w) as [[w1 t] r].
    simpl in Hloop. subst r. destruct e; try discriminate; reflexivity.
  - intros e. rewrite lambda_handler_unfold.
    destruct (lambda_handler_try json_dumps oc ce depth w)
      as [[w1 t] [r|[]]]; simpl; try discriminate;
      intros [= <-]; reflexivity.
  - intros r. rewrite lambda_handler_unfold, lambda_handler_try_unfold.
    cbv zeta.
    destruct (list_roots oc) as [[|first_root roots]|e].
    + simpl. discriminate.
    + destruct (for_each _ _ w) as [[w1 t] [[]|e]].
      * destruct (failure (list_children oc (root_Id first_root)))
          as [[]|]; simpl; try discriminate; eauto.
        intros [= <-]. simpl. discriminate.
      * destruct e; simpl; try discriminate; eauto.
    + destruct e; simpl; try discriminate; eauto.
Qed.

End Outcome.

Lemma run_outcome_witness :
  outcome_of (lambda_handler quoted unlistable_directory store_client 3
                empty_store)
  = Return (mk_response 500 (quoted "Error: AccessDeniedException"))
  /\ outcome_of (lambda_handler quoted sample_directory flaky_client 3
                   (true, empty_store))
     = Return (mk_response 200 (quoted "Cost categories updated successfully")).
Proof.
  split.
  - refine (proj1 (proj2 (run_outcome quoted unlistable_directory
                            store_client 3 empty_store)
                     (mk_root "r-root") [] eq_refl
                     unlistable_directory_client_errors_only
                     store_client_errors_only _)
              "AccessDeniedException" eq_refl).
    simpl. intros ou [].
  - refine (proj2 (proj2 (run_outcome quoted sample_directory
                            flaky_client 3 (true, empty_store))
                     (mk_root "r-root") [] eq_refl
                     sample_directory_client_errors_only
                     flaky_client_errors_only sample_nesting)
              eq_refl).
Defined.

Lemma non_client_errors_escape_witness :
  lambda_handler quoted rootless_directory store_client 3 empty_store
  = (empty_store, [Called list_roots_call],
     Raise (IndexError "list index out of range")).
Proof.
  apply (non_client_errors_escape quoted rootless_directory store_client 3
           empty_store).
  reflexivity.
Defined.

(** ** Reconciling against the store *)

Lemma append_cancel (prefix s1 s2 : string) :
  (prefix ++ s1 = prefix ++ s2)%string -> s1 = s2.
Proof.
  induction prefix as [|a prefix IH]; simpl; auto.
  intros [= H]. auto.
Qed.

Lemma arn_of_injective a b : arn_of a = arn_of b -> a = b.
Proof.
  unfold arn_of. intros H. apply append_cancel in H.
  apply Unsigned.to_uint_inj.
  assert (Hs : Some (Nat.to_uint a) = Some (Nat.to_uint b)).
  { rewrite <- !NilEmpty.usu. now rewrite H. }
  now injection Hs.
Qed.

Lemma find_references name defs :
  find (has_name name) (map reference_of defs)
  = option_map reference_of (find (is_named name) defs).
Proof.
  induction defs as [|d defs IH]; simpl; auto.
  unfold has_name, is_named in *. simpl.
  destruct (definition_Name d =? name)%string; auto.
Qed.

Lemma create_or_update_on_store ou_name account_ids s :
  create_or_update_cost_category store_client ou_name account_ids s =
  let name := category_name_of ou_name in
  let rules := build_rules ou_name account_ids in
  let listed := Called list_cost_category_definitions_call in
  match find (is_named name) (definitions s) with
  | Some d =>
      (mk_store (map (replace_rules (definition_Arn d) rules) (definitions s))
         (handed_out s),
       [listed;
        Called (update_cost_category_definition_call (definition_Arn d)
                  rule_version rules);
        Printed ("Updated cost category: " ++ name)],
       Return tt)
  | None =>
      (mk_store
         (definitions s
            ++ [mk_definition name (arn_of (handed_out s)) rules "Other"])
         (S (handed_out s)),
       [listed;
        Called (create_cost_category_definition_call name rule_version
                  rules "Other");
        Printed ("Created cost category: " ++ name)],
       Return tt)
  end.
Proof.
  rewrite create_or_update_cost_category_unfold. cbv zeta.
  simpl list_cost_category_definitions. unfold store_list.
  cbn [CostCategoryReferences get_default]. rewrite find_references.
  destruct (find (is_named (category_name_of ou_name)) (definitions s))
    as [d|] eqn:Hfind; simpl option_map; cbv iota.
  - simpl update_cost_category_definition. unfold store_update.
    cbn [CostCategoryArn reference_of].
    assert (Hex : existsb (has_arn (definition_Arn d)) (definitions s) = true).
    { apply existsb_exists. exists d. apply find_some in Hfind.
      split; [tauto|]. unfold has_arn. apply String.eqb_refl. }
    rewrite Hex. reflexivity.
  - reflexivity.
Qed.

Lemma replace_rules_keeps_name arn rules d :
  definition_Name (replace_rules arn rules d) = definition_Name d.
Proof. unfold replace_rules. now destruct (has_arn arn d). Qed.

Lemma replace_rules_keeps_arn arn rules d :
  definition_Arn (replace_rules arn rules d) = definition_Arn d.
Proof. unfold replace_rules. now destruct (has_arn arn d). Qed.

Lemma named_after_replace name arn rules defs :
  filter (is_named name) (map (replace_rules arn rules) defs)
  = map (replace_rules arn rules) (filter (is_named name) defs).
Proof.
  induction defs as [|d defs IH]; simpl; auto.
  assert (Hsame : is_named name (replace_rules arn rules d)
                  = is_named name d).
  { unfold is_named. now rewrite replace_rules_keeps_name. }
  rewrite Hsame. destruct (is_named name d); simpl; now rewrite IH.
Qed.

Lemma filter_none {A} (p : A -> bool) (l : list A) :
  (forall x, In x l -> p x = false) -> filter p l = [].
Proof.
  induction l as [|x l IH]; simpl; intros H; auto.
  rewrite (H x (or_introl eq_refl)). apply IH. intros y Hy. apply H. now right.
Qed.

Lemma only_one_named name defs d :
  NoDup (map definition_Name defs) ->
  find (is_named name) defs = Some d ->
  filter (is_named name) defs = [d].
Proof.
  induction defs as [|x defs IH]; simpl; [discriminate|].
  intros Hnd Hfind. inversion Hnd as [|? ? Hx Hdefs]; subst.
  destruct (is_named name x) eqn:Hname.
  - injection Hfind as ->. f_equal. apply filter_none.
    intros y Hy. unfold is_named in *. apply String.eqb_eq in Hname.
    apply String.eqb_neq. intros Hy'. apply Hx. rewrite Hname, <- Hy'.
    now apply in_map.
  - auto.
Qed.

Lemma same_arn_same_definition defs d x :
  NoDup (map definition_Arn defs) ->
  In d defs -> In x defs ->
  has_arn (definition_Arn d) x = true -> x = d.
Proof.
  intros Hnd Hd Hx Harn. unfold has_arn in Harn. apply String.eqb_eq in Harn.
  now apply (NoDup_map_injective_on definition_Arn defs).
Qed.

Lemma map_fixed {A} (f : A -> A) (l : list A) :
  (forall x, In x l -> f x = x) -> map f l = l.
Proof.
  induction l as [|x l IH]; simpl; intros H; auto.
  rewrite (H x (or_introl eq_refl)). f_equal. apply IH.
  intros y Hy. apply H. now right.
Qed.

Lemma reconciled_wf ou_name account_ids s :
  store_wf s -> store_wf (reconciled ou_name account_ids s).
Proof.
  intros [Harns Hnda Hndn]. unfold reconciled.
  rewrite create_or_update_on_store. cbv zeta.
  destruct (find _ (definitions s)) as [d|] eqn:Hfind;
    unfold world_of; simpl fst.
  - split; simpl.
    + intros x Hx. apply in_map_iff in Hx. destruct Hx as (y & <- & Hy).
      rewrite replace_rules_keeps_arn. auto.
    + rewrite map_map.
      erewrite map_ext; [exact Hnda|]. intros y.
      apply replace_rules_keeps_arn.
    + rewrite map_map.
      erewrite map_ext; [exact Hndn|]. intros y.
      apply replace_rules_keeps_name.
  - split; simpl.
    + intros x Hx. apply in_app_iff in Hx. destruct Hx as [Hx|[<-|[]]].
      * destruct (Harns x Hx) as (k & Hk & Hx'). exists k. split; auto.
      * exists (handed_out s). split; auto.
    + rewrite map_app. simpl. apply NoDup_app; auto.
      * repeat constructor. simpl. tauto.
      * intros a Ha [<-|[]]. apply in_map_iff in Ha.
        destruct Ha as (x & Hx' & Hx). destruct (Harns x Hx) as (k & Hk & Hkx).
        rewrite Hkx in Hx'. apply arn_of_injective in Hx'. lia.
    + rewrite map_app. simpl. apply NoDup_app; auto.
      * repeat constructor. simpl. tauto.
      * intros a Ha [<-|[]]. apply in_map_iff in Ha.
        destruct Ha as (x & Hx' & Hx).
        apply (find_none _ _ Hfind) in Hx. unfold is_named in Hx.
        rewrite Hx', String.eqb_refl in Hx. discriminate.
Qed.

Lemma reconciled_named ou_name account_ids s :
  store_wf s ->
  exists d,
    named (category_name_of ou_name) (reconciled ou_name account_ids s) = [d]
    /\ definition_Rules d = build_rules ou_name account_ids.
Proof.
  intros [Harns Hnda Hndn]. unfold reconciled, named.
  rewrite create_or_update_on_store. cbv zeta.
  destruct (find _ (definitions s)) as [d|] eqn:Hfind;
    unfold world_of; simpl fst; simpl definitions.
  - rewrite named_after_replace, (only_one_named _ _ d Hndn Hfind).
    simpl. unfold replace_rules, has_arn. rewrite String.eqb_refl.
    eexists. split; reflexivity.
  - rewrite filter_app, filter_none.
    + simpl. unfold is_named at 1. simpl. rewrite String.eqb_refl.
      eexists. split; reflexivity.
    + intros x Hx. now apply (find_none _ _ Hfind).
Qed.


Lemma reconciled_again ou_name account_ids s d :
  store_wf s ->
  named (category_name_of ou_name) s = [d] ->
  definition_Rules d = build_rules ou_name account_ids ->
  create_or_update_cost_category store_client ou_name account_ids s
  = (s,
     [Called list_cost_category_definitions_call;
      Called (update_cost_category_definition_call (definition_Arn d)
                rule_version (build_rules ou_name account_ids));
      Printed ("Updated cost category: " ++ category_name_of ou_name)],
     Return tt).
Proof.
  intros [Harns Hnda Hndn] Hnamed Hrules.
  rewrite create_or_update_on_store. cbv zeta.
  unfold named in Hnamed. rewrite filter_find in Hnamed.
  destruct (find _ (definitions s)) as [d'|] eqn:Hfind; [|discriminate].
  injection Hnamed as -> _. f_equal. f_equal.
  destruct s as [defs handed]. simpl in *. f_equal.
  apply map_fixed. intros x Hx. unfold replace_rules.
  destruct (has_arn (definition_Arn d) x) eqn:Harn; auto.
  apply find_some in Hfind. destruct Hfind as [Hd _].
  apply (same_arn_same_definition _ d x Hnda Hd Hx) in Harn. subst x.
  rewrite <- Hrules. now destruct d.
Qed.

(** ** Two runs in a row *)






Lemma for_each_cons {S A} (body : A -> M S unit) x l (s : S) :
  for_each body (x :: l) s =
  match body x s with
  | (s1, t1, Return _) =>
      match for_each body l s1 with (s2, t2, r) => (s2, t1 ++ t2, r) end
  | (s1, t1, Raise e) => (s1, t1, Raise e)
  end.
Proof.
  simpl. unfold bind. now destruct (body x s) as [[s1 t1] [[]|e]].
Qed.



Section Idempotence.

Variable json_dumps : string -> string.


End Idempotence.

Lemma finance_store_wf : store_wf finance_store.
Proof.
  split; simpl.
  - intros d [<-|[]]. exists 0. split; [lia|reflexivity].
  - repeat constructor. simpl. tauto.
  - repeat constructor. simpl. tauto.
Defined.


(** *** A first run on the empty store *)

Example first_run_creates_two_categories :
  world_of (lambda_handler quoted sample_directory store_client 3 empty_store)
  = mk_store
      [mk_definition "OU-Finance" (arn_of 0)
         [mk_rule "Finance" "LINKED_ACCOUNT" ["111"; "113"] ["EQUALS"]]
         "Other";
       mk_definition "OU-Engineering" (arn_of 1)
         [mk_rule "Engineering" "LINKED_ACCOUNT" ["221"; "222"] ["EQUALS"]]
         "Other"]
      2
  /\ classification_calls
       (trace_of (lambda_handler quoted sample_directory store_client 3
                    empty_store))
     = [list_cost_category_definitions_call;
        create_cost_category_definition_call "OU-Finance" rule_version
          [mk_rule "Finance" "LINKED_ACCOUNT" ["111"; "113"] ["EQUALS"]]
          "Other";
        list_cost_category_definitions_call;
        create_cost_category_definition_call "OU-Engineering" rule_version
          [mk_rule "Engineering" "LINKED_ACCOUNT" ["221"; "222"] ["EQUALS"]]
          "Other"].
Proof. split; vm_compute; reflexivity. Qed.

(** * Further properties *)

(** ** The collector *)

Lemma children_loop_run (self : string -> D (list account_entry))
    (children : list child) (accounts : list account_entry) :
  (forall c, In c children ->
     exists r, snd (self (child_Id c)) = Return r) ->
  children_loop self children accounts
  = (accounts
       ++ flat_map (fun c => returned_list (self (child_Id c))) children,
     flat_map (fun c => events_of (self (child_Id c))) children,
     Return tt).
Proof.
  revert accounts. induction children as [|c cs IH]; intros accounts Hall.
  - simpl. unfold ret. now rewrite app_nil_r.
  - rewrite children_loop_cons.
    destruct (Hall c (or_introl eq_refl)) as [r Hr].
    simpl flat_map. unfold returned_list at 1. unfold events_of at 1.
    destruct (self (child_Id c)) as [t o]. simpl in Hr. subst o.
    rewrite IH by (intros c' Hc'; apply Hall; now right).
    simpl. now rewrite app_assoc.
Qed.

Lemma map_over_flat_map {A B C} (f : B -> C) (g : A -> list B) (l : list A) :
  map f (flat_map g l) = flat_map (fun x => map f (g x)) l.
Proof.
  induction l as [|x l IH]; simpl; auto. now rewrite map_app, IH.
Qed.

Lemma calls_map_Called l : calls (map Called l) = l.
Proof. induction l as [|c l IH]; simpl; congruence. Qed.

Lemma get_accounts_by_ou_tree_trace oc t :
  represents oc t ->
  forall depth, height t <= depth ->
  get_accounts_by_ou oc depth (node_id t)
  = (map Called (tree_calls t), Return (active_entries (tree_accounts t))).
Proof.
  induction t as [i accs kids IH] using ou_tree_induction.
  intros Hrep depth Hdepth.
  destruct depth as [|depth]; [simpl in Hdepth; lia|].
  pose proof (represents_children _ _ _ _ Hrep) as Hkids.
  destruct Hrep as (Hfa & Ha & Hfc & Hc & _).
  rewrite Forall_forall in IH, Hkids.
  assert (Hkid : forall k, In k kids ->
            get_accounts_by_ou oc depth (node_id k)
            = (map Called (tree_calls k),
               Return (active_entries (tree_accounts k)))).
  { intros k Hk. apply IH; auto. simpl in Hdepth.
    pose proof (height_child k kids Hk). lia. }
  simpl node_id. rewrite get_accounts_by_ou_S. cbv zeta.
  rewrite Hfa, Hfc, Ha, children_loop_run.
  - simpl tree_calls. simpl tree_accounts. simpl map.
    rewrite active_entries_app, active_entries_flat_map.
    f_equal; [f_equal; f_equal|f_equal; f_equal].
    + rewrite map_over_flat_map.
      apply (flat_map_through_ids
               (fun i => events_of (get_accounts_by_ou oc depth i))
               (fun k => map Called (tree_calls k))); auto.
      intros k Hk. now rewrite (Hkid k Hk).
    + apply (flat_map_through_ids
               (fun i => returned_list (get_accounts_by_ou oc depth i))
               (fun k => active_entries (tree_accounts k))); auto.
      intros k Hk. unfold returned_list. now rewrite (Hkid k Hk).
  - intros c Hc'.
    assert (Hin : In (child_Id c) (map node_id kids)).
    { rewrite <- Hc. now apply in_map. }
    apply in_map_iff in Hin. destruct Hin as (k & Hk & Hin).
    rewrite <- Hk, (Hkid k Hin). simpl. eauto.
Qed.

(** X1.  On a tree that the directory represents, the collector visits the
    OUs depth first, each OU before its descendants and the child OUs in
    the order they are listed: it makes exactly the two listings of every
    OU of the tree, once, in that order, and it returns the ACTIVE
    accounts in that order, the accounts of an OU in the order they are
    listed. *)
Theorem collector_is_preorder oc t depth :
  represents oc t ->
  height t <= depth ->
  calls (events_of (get_accounts_by_ou oc depth (node_id t))) = tree_calls t
  /\ snd (get_accounts_by_ou oc depth (node_id t))
     = Return (map entry_of (filter is_active (tree_accounts t))).
Proof.
  intros Hrep Hdepth.
  rewrite (get_accounts_by_ou_tree_trace oc t Hrep depth Hdepth).
  split; [apply calls_map_Called|reflexivity].
Qed.

Lemma collector_is_preorder_witness :
  calls (events_of (get_accounts_by_ou sample_directory 2 "ou-finance"))
  = [list_accounts_for_parent_call "ou-finance";
     list_children_call "ou-finance" "ORGANIZATIONAL_UNIT";
     list_accounts_for_parent_call "ou-payroll";
     list_children_call "ou-payroll" "ORGANIZATIONAL_UNIT"]
  /\ snd (get_accounts_by_ou sample_directory 2 "ou-finance")
     = Return [entry_of acct_111; entry_of acct_113].
Proof.
  apply (collector_is_preorder sample_directory finance_tree 2).
  - simpl. repeat split; reflexivity.
  - simpl. lia.
Defined.

Lemma children_loop_ext self1 self2 children accounts :
  (forall i, self1 i = self2 i) ->
  children_loop self1 children accounts
  = children_loop self2 children accounts.
Proof.
  intros Hsame. revert accounts.
  induction children as [|c cs IH]; intros accounts; [reflexivity|].
  rewrite !children_loop_cons, Hsame.
  destruct (self2 (child_Id c)) as [t [r|e]]; [|reflexivity].
  now rewrite IH.
Qed.

Lemma get_accounts_by_ou_ext oc1 oc2 :
  same_listings oc1 oc2 ->
  forall depth ou_id,
    get_accounts_by_ou oc1 depth ou_id = get_accounts_by_ou oc2 depth ou_id.
Proof.
  intros Hsame. induction depth as [|depth IH]; intros ou_id; [reflexivity|].
  rewrite !get_accounts_by_ou_S. cbv zeta.
  destruct (Hsame ou_id) as (-> & -> & -> & ->).
  now rewrite (children_loop_ext _ _ _ _ IH).
Qed.

(** X2.  The collector does not depend on how the directory cuts its
    listings into pages: two directories that list the same accounts and
    child OUs in the same order, with the same failures, give the same
    trace and the same outcome. *)
Theorem collector_ignores_page_boundaries oc1 oc2 depth ou_id :
  same_listings oc1 oc2 ->
  get_accounts_by_ou oc1 depth ou_id = get_accounts_by_ou oc2 depth ou_id.
Proof. intros Hsame. now apply get_accounts_by_ou_ext. Qed.

Lemma sample_repaginated : same_listings sample_directory repaginated_directory.
Proof.
  intros ou_id. unfold all_accounts, all_children. simpl.
  destruct (ou_id =? "ou-engineering")%string eqn:Heng;
    destruct (ou_id =? "r-root")%string eqn:Hroot;
    try (apply String.eqb_eq in Heng; subst ou_id);
    try (apply String.eqb_eq in Hroot; subst ou_id);
    try discriminate; repeat split; reflexivity.
Defined.

Lemma collector_ignores_page_boundaries_witness :
  get_accounts_by_ou sample_directory 3 "ou-engineering"
  = get_accounts_by_ou repaginated_directory 3 "ou-engineering".
Proof.
  apply (collector_ignores_page_boundaries sample_directory
           repaginated_directory 3 "ou-engineering" sample_repaginated).
Defined.






Lemma children_loop_calls (P : call -> Prop) self children accounts :
  (forall i, Forall P (calls (fst (self i)))) ->
  Forall P (calls (trace_of (children_loop self children accounts))).
Proof.
  intros Hself. revert accounts.
  induction children as [|c cs IH]; intros accounts; [constructor|].
  rewrite children_loop_cons. specialize (Hself (child_Id c)).
  destruct (self (child_Id c)) as [t [r|e]]; simpl in Hself.
  - specialize (IH (accounts ++ r)).
    destruct (children_loop self cs (accounts ++ r)) as [[a t'] o].
    unfold trace_of in *. simpl in *. rewrite calls_app.
    apply Forall_app. now split.
  - exact Hself.
Qed.

Lemma get_accounts_by_ou_listing_calls oc depth ou_id :
  Forall (fun c => is_listing_call c = true)
    (calls (fst (get_accounts_by_ou oc depth ou_id))).
Proof.
  revert ou_id.
  induction depth as [|depth IH]; intros ou_id; [constructor|].
  rewrite get_accounts_by_ou_S. cbv zeta.
  destruct (failure (list_accounts_for_parent oc ou_id)) as [[]|];
    try (repeat constructor).
  pose proof (children_loop_calls (fun c => is_listing_call c = true)
                (get_accounts_by_ou oc depth) (all_children oc ou_id)
                (active_entries (all_accounts oc ou_id)) IH) as Hloop.
  destruct (children_loop _ _ _) as [[a t] o]. unfold trace_of in Hloop.
  simpl in Hloop.
  assert (Hmore : forall msg,
            Forall (fun c => is_listing_call c = true)
              (calls (t ++ [Printed msg]))).
  { intros msg. rewrite calls_app. apply Forall_app. split; auto. }
  destruct o as [[]|[]]; simpl;
    destruct (failure (list_children oc ou_id)) as [[]|]; simpl;
    repeat (constructor; [reflexivity|]); auto.
Qed.

(** X4.  Whatever the directory answers, the only remote calls of the
    collector are the listing of the accounts of a parent and the listing
    of its children of type [ORGANIZATIONAL_UNIT]: it describes no OU,
    lists no root and never addresses the classification store. *)
Theorem collector_calls_only_listings oc depth ou_id :
  Forall (fun c => is_listing_call c = true)
    (calls (events_of (get_accounts_by_ou oc depth ou_id))).
Proof. apply get_accounts_by_ou_listing_calls. Qed.

Lemma children_loop_split self before c after accounts :
  (forall b, In b before -> exists r, snd (self (child_Id b)) = Return r) ->
  children_loop self (before ++ c :: after) accounts =
  let collected :=
    accounts ++ flat_map (fun b => returned_list (self (child_Id b))) before in
  let visited := flat_map (fun b => events_of (self (child_Id b))) before in
  match self (child_Id c) with
  | (t, Return child_accounts) =>
      match children_loop self after (collected ++ child_accounts) with
      | (accounts', t', r) => (accounts', visited ++ t ++ t', r)
      end
  | (t, Raise e) => (collected, visited ++ t, Raise e)
  end.
Proof.
  revert accounts. induction before as [|b before IH]; intros accounts Hall.
  - simpl. rewrite children_loop_cons, app_nil_r.
    destruct (self (child_Id c)) as [t [r|e]]; reflexivity.
  - simpl app. rewrite children_loop_cons.
    destruct (Hall b (or_introl eq_refl)) as [r Hr].
    cbv zeta. simpl flat_map.
    unfold returned_list at 1 3. unfold events_of at 1 3.
    destruct (self (child_Id b)) as [tb ob]. simpl in Hr. subst ob.
    rewrite IH by (intros b' Hb'; apply Hall; now right). cbv zeta.
    simpl snd. simpl fst.
    destruct (self (child_Id c)) as [t [rc|e]].
    + rewrite <- !app_assoc.
      destruct (children_loop self after _) as [[a t'] o].
      now rewrite <- !app_assoc.
    + now rewrite <- !app_assoc.
Qed.

(** X5.  An exception that is not a [ClientError] ends the collection.
    Raised by the listing of the accounts of an OU it leaves the call at
    once.  Raised while a child OU is collected it leaves the call of the
    parent as well: the child OUs listed after that child are not
    visited and the accounts collected so far are not returned. *)
Theorem collector_aborts_on_other_errors oc depth ou_id e :
  is_ClientError e = false ->
  (failure (list_accounts_for_parent oc ou_id) = Some e ->
   get_accounts_by_ou oc (S depth) ou_id
   = ([Called (list_accounts_for_parent_call ou_id)], Raise e))
  /\ (failure (list_accounts_for_parent oc ou_id) = None ->
      forall before c after,
        all_children oc ou_id = before ++ c :: after ->
        (forall b, In b before ->
           exists r,
             snd (get_accounts_by_ou oc depth (child_Id b)) = Return r) ->
        snd (get_accounts_by_ou oc depth (child_Id c)) = Raise e ->
        get_accounts_by_ou oc (S depth) ou_id
        = (Called (list_accounts_for_parent_call ou_id)
             :: Called (list_children_call ou_id "ORGANIZATIONAL_UNIT")
             :: flat_map
                  (fun b =>
                     events_of (get_accounts_by_ou oc depth (child_Id b)))
                  before
             ++ events_of (get_accounts_by_ou oc depth (child_Id c)),
           Raise e)).
Proof.
  intros He. split.
  - intros Hfail. rewrite get_accounts_by_ou_S. cbv zeta. rewrite Hfail.
    destruct e; try discriminate; reflexivity.
  - intros Hfa before c after Hchildren Hbefore Hraise.
    rewrite get_accounts_by_ou_S. cbv zeta.
    rewrite Hfa, Hchildren, children_loop_split by exact Hbefore.
    cbv zeta. unfold events_of at 2.
    destruct (get_accounts_by_ou oc depth (child_Id c)) as [t o].
    simpl in Hraise. subst o. destruct e; try discriminate; reflexivity.
Qed.

Lemma collector_aborts_on_other_errors_witness :
  get_accounts_by_ou unreachable_directory 2 "ou-finance"
  = ([Called (list_accounts_for_parent_call "ou-finance");
      Called (list_children_call "ou-finance" "ORGANIZATIONAL_UNIT");
      Called (list_accounts_for_parent_call "ou-payroll")],
     Raise (OtherError "EndpointConnectionError")).
Proof.
  refine (proj2 (collector_aborts_on_other_errors unreachable_directory 1
                   "ou-finance" (OtherError "EndpointConnectionError")
                   eq_refl)
            eq_refl [] (mk_child "ou-payroll") [] eq_refl _ eq_refl).
  intros b [].
Defined.






(** ** The reconciler *)

(** X7.  The reconciler raises only what the classification store raised,
    and never a [ClientError]: the subscripts [[...][0]] and
    [existing_categories['CostCategoryReferences']] of the update branch
    never fail, because that branch is entered only when the listing holds
    a definition of the derived name. *)
Theorem reconciler_raises_only_store_errors {W} (ce : ce_client W)
    ou_name account_ids w e :
  outcome_of (create_or_update_cost_category ce ou_name account_ids w)
  = Raise e ->
  is_ClientError e = false
  /\ (snd (list_cost_category_definitions ce w) = Raise e
      \/ (exists arn w1,
            snd (update_cost_category_definition ce arn
                   "CostCategoryExpression.v1"
                   (build_rules ou_name account_ids) w1)
            = Raise e)
      \/ (exists w1,
            snd (create_cost_category_definition ce ("OU-" ++ ou_name)
                   "CostCategoryExpression.v1"
                   (build_rules ou_name account_ids) "Other" w1)
            = Raise e)).
Proof.
  intros Hraise. split.
  - now apply create_or_update_cost_category_escapes in Hraise.
  - rewrite create_or_update_cost_category_unfold in Hraise.
    cbv zeta in Hraise.
    destruct (list_cost_category_definitions ce w) as [w1 [existing|e1]].
    + destruct (find _ _) as [cat|].
      * right. left. exists (CostCategoryArn cat), w1.
        change rule_version with "CostCategoryExpression.v1" in Hraise.
        destruct (update_cost_category_definition ce _ _ _ w1)
          as [w2 [[]|[]]]; simpl in *; try discriminate; exact Hraise.
      * right. right. exists w1.
        change rule_version with "CostCategoryExpression.v1" in Hraise.
        change (category_name_of ou_name) with ("OU-" ++ ou_name)%string
          in Hraise.
        destruct (create_cost_category_definition ce _ _ _ _ w1)
          as [w2 [[]|[]]]; simpl in *; try discriminate; exact Hraise.
    + left. destruct e1; simpl in *; try discriminate;
        injection Hraise as <-; reflexivity.
Qed.

Lemma reconciler_raises_only_store_errors_witness :
  snd (list_cost_category_definitions offline_client tt)
  = Raise (OtherError "EndpointConnectionError")
  \/ (exists arn w1,
        snd (update_cost_category_definition offline_client arn
               "CostCategoryExpression.v1"
               (build_rules "Finance" ["111"]) w1)
        = Raise (OtherError "EndpointConnectionError"))
  \/ (exists w1,
        snd (create_cost_category_definition offline_client "OU-Finance"
               "CostCategoryExpression.v1"
               (build_rules "Finance" ["111"]) "Other" w1)
        = Raise (OtherError "EndpointConnectionError")).
Proof.
  apply (reconciler_raises_only_store_errors offline_client "Finance"
           ["111"] tt (OtherError "EndpointConnectionError")).
  reflexivity.
Defined.

(** X8.  Whatever the store answers, a call of the reconciler addresses
    it once or twice: first the listing, then at most one of update and
    create, never both.  When the listing raises, nothing follows it and
    the store is as the listing left it. *)
Theorem reconciler_call_shape {W} (ce : ce_client W) ou_name account_ids w :
  let run := create_or_update_cost_category ce ou_name account_ids w in
  let rules := build_rules ou_name account_ids in
  (calls (trace_of run) = [list_cost_category_definitions_call]
   \/ (exists arn,
         calls (trace_of run)
         = [list_cost_category_definitions_call;
            update_cost_category_definition_call arn
              "CostCategoryExpression.v1" rules])
   \/ calls (trace_of run)
      = [list_cost_category_definitions_call;
         create_cost_category_definition_call ("OU-" ++ ou_name)
           "CostCategoryExpression.v1" rules "Other"])
  /\ (forall e,
        snd (list_cost_category_definitions ce w) = Raise e ->
        calls (trace_of run) = [list_cost_category_definitions_call]
        /\ world_of run = fst (list_cost_category_definitions ce w)).
Proof.
  cbv zeta. rewrite create_or_update_cost_category_unfold. cbv zeta.
  destruct (list_cost_category_definitions ce w) as [w1 [existing|e1]].
  - split; [|intros e He; discriminate He].
    destruct (find _ _) as [cat|].
    + right. left. exists (CostCategoryArn cat).
      destruct (update_cost_category_definition ce _ _ _ w1)
        as [w2 [[]|[]]]; reflexivity.
    + right. right.
      destruct (create_cost_category_definition ce _ _ _ _ w1)
        as [w2 [[]|[]]]; reflexivity.
  - split; [left|intros e _; split]; destruct e1; reflexivity.
Qed.

Lemma reconciler_call_shape_witness :
  calls (trace_of (create_or_update_cost_category flaky_client "Finance"
                     ["111"] (true, finance_store)))
  = [list_cost_category_definitions_call]
  /\ world_of (create_or_update_cost_category flaky_client "Finance"
                 ["111"] (true, finance_store))
     = (false, finance_store).
Proof.
  apply (proj2 (reconciler_call_shape flaky_client "Finance" ["111"]
                  (true, finance_store))
           (ClientError "ThrottlingException")).
  reflexivity.
Defined.

(** X9.  Against the store, the reconciler is idempotent call by call:
    after one call, a second call with the same name and account ids
    finds the one definition of the derived name, issues the update of
    that definition and leaves the store as it is. *)
Theorem reconciler_twice ou_name account_ids s :
  store_wf s ->
  let s1 := reconciled ou_name account_ids s in
  exists d,
    named ("OU-" ++ ou_name) s1 = [d]
    /\ create_or_update_cost_category store_client ou_name account_ids s1
       = (s1,
          [Called list_cost_category_definitions_call;
           Called (update_cost_category_definition_call (definition_Arn d)
                     "CostCategoryExpression.v1"
                     [mk_rule ou_name "LINKED_ACCOUNT" account_ids
                        ["EQUALS"]]);
           Printed ("Updated cost category: " ++ "OU-" ++ ou_name)],
          Return tt).
Proof.
  intros Hwf s1.
  destruct (reconciled_named ou_name account_ids s Hwf) as (d & Hd & Hrules).
  exists d. split; [exact Hd|].
  apply (reconciled_again ou_name account_ids s1 d); auto.
  now apply reconciled_wf.
Qed.

Lemma reconciler_twice_witness :
  exists d,
    named "OU-Finance" (reconciled "Finance" ["111"; "113"] finance_store)
    = [d]
    /\ create_or_update_cost_category store_client "Finance" ["111"; "113"]
         (reconciled "Finance" ["111"; "113"] finance_store)
       = (reconciled "Finance" ["111"; "113"] finance_store,
          [Called list_cost_category_definitions_call;
           Called (update_cost_category_definition_call (definition_Arn d)
                     "CostCategoryExpression.v1"
                     [mk_rule "Finance" "LINKED_ACCOUNT" ["111"; "113"]
                        ["EQUALS"]]);
           Printed "Updated cost category: OU-Finance"],
          Return tt).
Proof.
  apply (reconciler_twice "Finance" ["111"; "113"] finance_store).
  exact finance_store_wf.
Defined.

(** ** The handler *)

(** X10.  A top-level OU whose lookup returns an empty display name is
    skipped as one whose lookup failed: after the lookup, neither the
    collector nor the classification store is called for it, and nothing
    is logged. *)
Theorem unnamed_ou_is_skipped {W} oc (ce : ce_client W) depth ou w :
  describe_organizational_unit oc (child_Id ou) = Return EmptyString ->
  lambda_handler_ou oc ce depth ou w
  = (w, [Called (describe_organizational_unit_call (child_Id ou))],
     Return tt).
Proof.
  intros Hname. rewrite lambda_handler_ou_unfold, get_ou_details_unfold.
  cbv zeta. now rewrite Hname.
Qed.

Lemma unnamed_ou_is_skipped_witness :
  lambda_handler_ou unnamed_directory store_client 3 (mk_child "ou-finance")
    empty_store
  = (empty_store,
     [Called (describe_organizational_unit_call "ou-finance")], Return tt).
Proof.
  apply (unnamed_ou_is_skipped unnamed_directory store_client 3
           (mk_child "ou-finance") empty_store).
  reflexivity.
Defined.

Lemma for_each_ext {S A} (body1 body2 : A -> M S unit) (l : list A) (s : S) :
  (forall x s', body1 x s' = body2 x s') ->
  for_each body1 l s = for_each body2 l s.
Proof.
  intros Hsame. revert s. induction l as [|x l IH]; intros s; [reflexivity|].
  rewrite !for_each_cons, Hsame.
  destruct (body2 x s) as [[s1 t1] [[]|e]]; [|reflexivity]. now rewrite IH.
Qed.

Lemma lambda_handler_ou_ext {W} oc1 oc2 (ce : ce_client W) depth ou w :
  same_listings oc1 oc2 ->
  (forall ou_id,
     describe_organizational_unit oc1 ou_id
     = describe_organizational_unit oc2 ou_id) ->
  lambda_handler_ou oc1 ce depth ou w = lambda_handler_ou oc2 ce depth ou w.
Proof.
  intros Hsame Hnames.
  rewrite !lambda_handler_ou_unfold, !get_ou_details_unfold. cbv zeta.
  now rewrite Hnames, (get_accounts_by_ou_ext oc1 oc2 Hsame).
Qed.

Section FurtherRuns.

Variable json_dumps : string -> string.

(** X11.  Of the roots that the directory lists, the handler uses the
    first and ignores the others; and a run, like the collector, does not
    depend on the page boundaries of the listings. *)
Theorem handler_uses_first_root_only {W} oc1 oc2 (ce : ce_client W)
    depth w first_root roots1 roots2 :
  list_roots oc1 = Return (first_root :: roots1) ->
  list_roots oc2 = Return (first_root :: roots2) ->
  same_listings oc1 oc2 ->
  (forall ou_id,
     describe_organizational_unit oc1 ou_id
     = describe_organizational_unit oc2 ou_id) ->
  lambda_handler json_dumps oc1 ce depth w
  = lambda_handler json_dumps oc2 ce depth w.
Proof.
  intros Hroots1 Hroots2 Hsame Hnames.
  rewrite !lambda_handler_unfold, !lambda_handler_try_unfold. cbv zeta.
  rewrite Hroots1, Hroots2.
  destruct (Hsame (root_Id first_root)) as (_ & _ & -> & ->).
  rewrite (for_each_ext (lambda_handler_ou oc1 ce depth)
             (lambda_handler_ou oc2 ce depth)); [reflexivity|].
  intros ou w'. now apply lambda_handler_ou_ext.
Qed.

(** X12.  When the listing of the top-level OUs fails with a
    [ClientError] after some pages, the run answers with status 500 but
    the top-level OUs of the pages already delivered have been handled:
    what was created or updated for them stays in the store. *)
Theorem top_level_failure_keeps_progress {W} oc (ce : ce_client W)
    depth w first_root roots msg w1 t :
  list_roots oc = Return (first_root :: roots) ->
  failure (list_children oc (root_Id first_root)) = Some (ClientError msg) ->
  for_each (lambda_handler_ou oc ce depth)
    (all_children oc (root_Id first_root)) w
  = (w1, t, Return tt) ->
  lambda_handler json_dumps oc ce depth w
  = (w1,
     Called list_roots_call
       :: Called (list_children_call (root_Id first_root)
                    "ORGANIZATIONAL_UNIT")
       :: t ++ [Printed ("Error in lambda execution: " ++ msg)],
     Return (mk_response 500 (json_dumps ("Error: " ++ msg)))).
Proof.
  intros Hroots Hfail Hloop.
  rewrite lambda_handler_unfold, lambda_handler_try_unfold. cbv zeta.
  now rewrite Hroots, Hloop, Hfail.
Qed.

End FurtherRuns.

Lemma handler_uses_first_root_only_witness :
  lambda_handler quoted sample_directory store_client 3 empty_store
  = lambda_handler quoted repaginated_directory store_client 3 empty_store.
Proof.
  apply (handler_uses_first_root_only quoted sample_directory
           repaginated_directory store_client 3 empty_store
           (mk_root "r-root") [] [mk_root "r-spare"] eq_refl eq_refl
           sample_repaginated).
  reflexivity.
Defined.

Lemma top_level_failure_keeps_progress_witness :
  world_of (lambda_handler quoted interrupted_directory store_client 3
              empty_store)
  = mk_store
      [mk_definition "OU-Finance" (arn_of 0)
         [mk_rule "Finance" "LINKED_ACCOUNT" ["111"; "113"] ["EQUALS"]]
         "Other";
       mk_definition "OU-Engineering" (arn_of 1)
         [mk_rule "Engineering" "LINKED_ACCOUNT" ["221"; "222"] ["EQUALS"]]
         "Other"]
      2
  /\ outcome_of (lambda_handler quoted interrupted_directory store_client 3
                   empty_store)
     = Return (mk_response 500 (quoted "Error: TooManyRequestsException")).
Proof.
  destruct (for_each (lambda_handler_ou interrupted_directory store_client 3)
              (all_children interrupted_directory "r-root") empty_store)
    as [[w1 t] r] eqn:Hloop.
  assert (Hr : r = Return tt) by (vm_compute in Hloop; congruence).
  subst r.
  rewrite (top_level_failure_keeps_progress quoted interrupted_directory
             store_client 3 empty_store (mk_root "r-root") []
             "TooManyRequestsException" w1 t eq_refl eq_refl Hloop).
  vm_compute in Hloop. injection Hloop as <- _. split; reflexivity.
Defined.

Lemma for_each_calls {S A} (P : call -> Prop) (body : A -> M S unit)
    (l : list A) (s : S) :
  (forall x s', In x l -> Forall P (calls (trace_of (body x s')))) ->
  Forall P (calls (trace_of (for_each body l s))).
Proof.
  revert s. induction l as [|x l IH]; intros s Hbody; [constructor|].
  rewrite for_each_cons.
  pose proof (Hbody x s (or_introl eq_refl)) as Hx.
  destruct (body x s) as [[s1 t1] [[]|e]]; [|exact Hx].
  assert (Hl : Forall P (calls (trace_of (for_each body l s1)))).
  { apply IH. intros y s' Hy. apply Hbody. now right. }
  destruct (for_each body l s1) as [[s2 t2] r]. unfold trace_of in *.
  simpl in *. rewrite calls_app. apply Forall_app. now split.
Qed.

Lemma listing_calls_target oc depth root_id t :
  Forall (fun c => is_listing_call c = true) (calls t) ->
  Forall (targets_top_level_ou oc depth root_id) (calls t).
Proof.
  apply Forall_impl. intros c Hc. destruct c; try discriminate; exact I.
Qed.

Lemma lambda_handler_ou_targets {W} oc (ce : ce_client W) depth root_id ou w :
  In ou (all_children oc root_id) ->
  Forall (targets_top_level_ou oc depth root_id)
    (calls (trace_of (lambda_handler_ou oc ce depth ou w))).
Proof.
  intros Hin. rewrite lambda_handler_ou_unfold, get_ou_details_unfold.
  cbv zeta.
  destruct (describe_organizational_unit oc (child_Id ou))
    as [name|e] eqn:Hname.
  - destruct name as [|a name]; simpl truthy_name.
    { repeat constructor. }
    pose proof (get_accounts_by_ou_listing_calls oc depth (child_Id ou))
      as Hlist.
    apply (listing_calls_target oc depth root_id) in Hlist.
    destruct (get_accounts_by_ou oc depth (child_Id ou))
      as [t1 [accounts|e]] eqn:Hrun; simpl in Hlist.
    + assert (Hids : map Id (returned_list
                               (get_accounts_by_ou oc depth (child_Id ou)))
                     = map Id accounts).
      { unfold returned_list. now rewrite Hrun. }
      destruct (map Id accounts) as [|i ids] eqn:Hmap.
      * unfold trace_of. simpl. constructor; [exact I|exact Hlist].
      * assert (Htarget :
                  exists ou0,
                    In ou0 (all_children oc root_id)
                    /\ describe_organizational_unit oc (child_Id ou0)
                       = Return (String a name)
                    /\ String a name <> EmptyString
                    /\ rule_version = "CostCategoryExpression.v1"
                    /\ map Id (returned_list
                                 (get_accounts_by_ou oc depth (child_Id ou0)))
                       <> []
                    /\ build_rules (String a name) (i :: ids)
                       = [mk_rule (String a name) "LINKED_ACCOUNT"
                            (map Id (returned_list
                                       (get_accounts_by_ou oc depth
                                          (child_Id ou0))))
                            ["EQUALS"]]).
        { exists ou. rewrite Hids. repeat split; auto; discriminate. }
        rewrite create_or_update_cost_category_unfold. cbv zeta.
        destruct (list_cost_category_definitions ce w)
          as [w1 [existing|e1]].
        -- destruct (find _ _) as [cat|].
           ++ destruct (update_cost_category_definition ce _ _ _ w1)
                as [w2 [[]|[]]]; unfold trace_of; simpl;
                rewrite calls_app; simpl;
                (constructor; [exact I|]); apply Forall_app;
                (split; [exact Hlist|]);
                (constructor; [exact I|]);
                (constructor; [|constructor]);
                exists (String a name); exact Htarget.
           ++ destruct (create_cost_category_definition ce _ _ _ _ w1)
                as [w2 [[]|[]]]; unfold trace_of; simpl;
                rewrite calls_app; simpl;
                (constructor; [exact I|]); apply Forall_app;
                (split; [exact Hlist|]);
                (constructor; [exact I|]);
                (constructor; [|constructor]);
                exists (String a name); (split; [exact Htarget|]);
                split; reflexivity.
        -- destruct e1; unfold trace_of; simpl; rewrite calls_app; simpl;
             (constructor; [exact I|]); apply Forall_app;
             (split; [exact Hlist|]); repeat constructor.
    + unfold trace_of. simpl. constructor; [exact I|exact Hlist].
  - destruct e; repeat constructor.
Qed.

Section RunShape.

Variable json_dumps : string -> string.

(** X13.  In every run, whatever fails, each create and each update that
    is sent to the classification store is the one of a top-level OU
    below the first root that has a non-empty display name and at least
    one collected account; its rule set is the one rule that maps the
    collected account ids to that name, and a create bears the name
    ["OU-"] followed by the display name and the default ["Other"].  An
    OU nested deeper gets no category of its own and no category is
    written with an empty account list. *)
Theorem run_writes_only_top_level_categories {W} oc (ce : ce_client W)
    depth w first_root roots :
  list_roots oc = Return (first_root :: roots) ->
  Forall (targets_top_level_ou oc depth (root_Id first_root))
    (calls (trace_of (lambda_handler json_dumps oc ce depth w))).
Proof.
  intros Hroots.
  rewrite lambda_handler_unfold, lambda_handler_try_unfold. cbv zeta.
  rewrite Hroots.
  pose proof (for_each_calls
                (targets_top_level_ou oc depth (root_Id first_root))
                (lambda_handler_ou oc ce depth)
                (all_children oc (root_Id first_root)) w) as Hloop.
  destruct (for_each _ _ w) as [[w1 t] r]. unfold trace_of in *.
  simpl in Hloop.
  assert (Ht : Forall (targets_top_level_ou oc depth (root_Id first_root))
                 (calls t)).
  { apply Hloop. intros ou w' Hin. now apply lambda_handler_ou_targets. }
  assert (Hmore : forall msg,
            Forall (targets_top_level_ou oc depth (root_Id first_root))
              (calls (t ++ [Printed msg]))).
  { intros msg. rewrite calls_app. apply Forall_app. split; auto. }
  destruct r as [[]|[]];
    try destruct (failure (list_children oc (root_Id first_root)))
      as [[]|];
    simpl; repeat (constructor; [exact I|]); auto.
Qed.

(** X14.  When the handler returns, the response is one of two.  Status
    200 with the success text means that the roots were listed, that
    there was a first root and that the listing of the top-level OUs
    succeeded to its end.  Status 500 carries the text of the
    [ClientError] that one of those two listings raised. *)
Theorem response_tells_top_level_outcome {W} oc (ce : ce_client W)
    depth w resp :
  outcome_of (lambda_handler json_dumps oc ce depth w) = Return resp ->
  (resp = mk_response 200 (json_dumps "Cost categories updated successfully")
   /\ exists first_root roots,
        list_roots oc = Return (first_root :: roots)
        /\ failure (list_children oc (root_Id first_root)) = None)
  \/ (exists msg,
        resp = mk_response 500 (json_dumps ("Error: " ++ msg))
        /\ (list_roots oc = Raise (ClientError msg)
            \/ exists first_root roots,
                 list_roots oc = Return (first_root :: roots)
                 /\ failure (list_children oc (root_Id first_root))
                    = Some (ClientError msg))).
Proof.
  rewrite lambda_handler_unfold, lambda_handler_try_unfold. cbv zeta.
  destruct (list_roots oc) as [[|first_root roots]|e].
  - discriminate.
  - pose proof (for_each_escapes (lambda_handler_ou oc ce depth)
                  (all_children oc (root_Id first_root)) w) as Hesc.
    destruct (for_each _ _ w) as [[w1 t] [[]|e]].
    + destruct (failure (list_children oc (root_Id first_root)))
        as [e|] eqn:Hfail.
      * destruct e; simpl; try discriminate. intros [= <-].
        right. exists msg. split; [reflexivity|]. right. eauto.
      * simpl. intros [= <-]. left. split; [reflexivity|]. eauto.
    + assert (He : is_ClientError e = false).
      { apply Hesc; [|reflexivity].
        intros x s e0. apply lambda_handler_ou_escapes. }
      destruct e; simpl in *; discriminate.
  - destruct e; simpl; try discriminate. intros [= <-].
    right. exists msg. split; [reflexivity|]. now left.
Qed.

End RunShape.

Lemma run_writes_only_top_level_categories_witness :
  Forall (targets_top_level_ou sample_directory 3 "r-root")
    (calls (trace_of (lambda_handler quoted sample_directory flaky_client 3
                        (true, finance_store)))).
Proof.
  apply (run_writes_only_top_level_categories quoted sample_directory
           flaky_client 3 (true, finance_store) (mk_root "r-root") []).
  reflexivity.
Defined.

Lemma response_tells_top_level_outcome_witness :
  (mk_response 500 (quoted "Error: AccessDeniedException")
   = mk_response 200 (quoted "Cost categories updated successfully")
   /\ exists first_root roots,
        list_roots unlistable_directory = Return (first_root :: roots)
        /\ failure (list_children unlistable_directory (root_Id first_root))
           = None)
  \/ (exists msg,
        mk_response 500 (quoted "Error: AccessDeniedException")
        = mk_response 500 (quoted ("Error: " ++ msg))
        /\ (list_roots unlistable_directory = Raise (ClientError msg)
            \/ exists first_root roots,
                 list_roots unlistable_directory
                 = Return (first_root :: roots)
                 /\ failure (list_children unlistable_directory
                               (root_Id first_root))
                    = Some (ClientError msg))).
Proof.
  apply (response_tells_top_level_outcome quoted unlistable_directory
           store_client 3 empty_store).
  reflexivity.
Defined.

(** X15.  What the collector could gather is reconciled as if it were
    complete.  When the listing of the accounts of a top-level OU itself
    fails with a [ClientError], the handler goes on with the ACTIVE
    accounts of the pages delivered before the failure: if there are
    some, the category of the OU is created or updated with these
    accounts only, although the child OUs were not visited; if there are
    none, the OU is skipped without a call to the store. *)
Theorem partial_collection_is_reconciled {W} oc (ce : ce_client W)
    depth ou ou_name msg w :
  0 < depth ->
  describe_organizational_unit oc (child_Id ou) = Return ou_name ->
  ou_name <> EmptyString ->
  failure (list_accounts_for_parent oc (child_Id ou))
  = Some (ClientError msg) ->
  let collected :=
    map account_Id (filter is_active (all_accounts oc (child_Id ou))) in
  let seen :=
    [Called (describe_organizational_unit_call (child_Id ou));
     Called (list_accounts_for_parent_call (child_Id ou));
     Printed (accounts_error_message (child_Id ou) msg)] in
  (collected = [] ->
   lambda_handler_ou oc ce depth ou w = (w, seen, Return tt))
  /\ (collected <> [] ->
      lambda_handler_ou oc ce depth ou w
      = match create_or_update_cost_category ce ou_name collected w with
        | (w2, t2, r) => (w2, seen ++ t2, r)
        end).
Proof.
  intros Hdepth Hname Hnonempty Hfail collected seen.
  destruct depth as [|depth]; [lia|].
  rewrite lambda_handler_ou_unfold, get_ou_details_unfold. cbv zeta.
  rewrite Hname, get_accounts_by_ou_S. cbv zeta. rewrite Hfail.
  destruct ou_name as [|a ou_name]; [congruence|]. simpl truthy_name.
  rewrite map_Id_active_entries. fold collected.
  split; intros Hcollected.
  - now rewrite Hcollected.
  - destruct collected as [|i ids]; [congruence|]. reflexivity.
Qed.

Lemma partial_collection_is_reconciled_witness :
  lambda_handler_ou flickering_directory store_client 3
    (mk_child "ou-finance") empty_store
  = match create_or_update_cost_category store_client "Finance" ["111"]
            empty_store with
    | (w2, t2, r) =>
        (w2,
         [Called (describe_organizational_unit_call "ou-finance");
          Called (list_accounts_for_parent_call "ou-finance");
          Printed (accounts_error_message "ou-finance"
                     "TooManyRequestsException")] ++ t2,
         r)
    end.
Proof.
  refine (proj2 (partial_collection_is_reconciled flickering_directory
                   store_client 3 (mk_child "ou-finance") "Finance"
                   "TooManyRequestsException" empty_store _ eq_refl _
                   eq_refl) _).
  - lia.
  - discriminate.
  - simpl. discriminate.
Defined.

Lemma no_describe_among_listing_calls t :
  Forall (fun c => is_listing_call c = true) (calls t) ->
  filter is_describe_call (calls t) = [].
Proof.
  induction (calls t) as [|c l IH]; intros Hall; [reflexivity|].
  inversion Hall as [|? ? Hc Hl]; subst. simpl.
  destruct c; try discriminate; simpl; auto.
Qed.

Lemma no_describe_in_reconciler {W} (ce : ce_client W) ou_name account_ids w :
  filter is_describe_call
    (calls (trace_of (create_or_update_cost_category ce ou_name
                        account_ids w)))
  = [].
Proof.
  rewrite create_or_update_cost_category_unfold. cbv zeta.
  destruct (list_cost_category_definitions ce w) as [w1 [existing|e1]].
  - destruct (find _ _) as [cat|].
    + destruct (update_cost_category_definition ce _ _ _ w1)
        as [w2 [[]|[]]]; reflexivity.
    + destruct (create_cost_category_definition ce _ _ _ _ w1)
        as [w2 [[]|[]]]; reflexivity.
  - destruct e1; reflexivity.
Qed.

Lemma lambda_handler_ou_describes {W} oc (ce : ce_client W) depth ou w :
  filter is_describe_call
    (calls (trace_of (lambda_handler_ou oc ce depth ou w)))
  = [describe_organizational_unit_call (child_Id ou)].
Proof.
  rewrite lambda_handler_ou_unfold, get_ou_details_unfold. cbv zeta.
  destruct (describe_organizational_unit oc (child_Id ou)) as [name|e].
  - destruct (truthy_name (Some name)) as [n|]; [|reflexivity].
    pose proof (no_describe_among_listing_calls _
                  (get_accounts_by_ou_listing_calls oc depth (child_Id ou)))
      as Hlist.
    destruct (get_accounts_by_ou oc depth (child_Id ou))
      as [t1 [accounts|e]]; simpl in Hlist.
    + destruct (map Id accounts) as [|i ids].
      * unfold trace_of. simpl. now rewrite Hlist.
      * pose proof (no_describe_in_reconciler ce n (i :: ids) w) as Hrec.
        destruct (create_or_update_cost_category ce n (i :: ids) w)
          as [[w2 t2] r]. unfold trace_of in *. simpl in *.
        now rewrite calls_app, filter_app, Hlist, Hrec.
    + unfold trace_of. simpl. now rewrite Hlist.
  - destruct e; reflexivity.
Qed.

Lemma for_each_describes {W} oc (ce : ce_client W) depth l w :
  outcome_of (for_each (lambda_handler_ou oc ce depth) l w) = Return tt ->
  filter is_describe_call
    (calls (trace_of (for_each (lambda_handler_ou oc ce depth) l w)))
  = map (fun ou => describe_organizational_unit_call (child_Id ou)) l.
Proof.
  revert w. induction l as [|ou l IH]; intros w; [reflexivity|].
  rewrite for_each_cons.
  pose proof (lambda_handler_ou_describes oc ce depth ou w) as Hou.
  destruct (lambda_handler_ou oc ce depth ou w) as [[w1 t1] [[]|e]];
    [|discriminate].
  specialize (IH w1).
  destruct (for_each (lambda_handler_ou oc ce depth) l w1) as [[w2 t2] r].
  unfold trace_of, outcome_of in *. simpl in *. intros Hr.
  now rewrite calls_app, filter_app, Hou, (IH Hr).
Qed.

Lemma keeps_definitions_refl s : keeps_definitions s s.
Proof. exists []. now rewrite app_nil_r. Qed.

Lemma keeps_definitions_trans s1 s2 s3 :
  keeps_definitions s1 s2 -> keeps_definitions s2 s3 ->
  keeps_definitions s1 s3.
Proof.
  intros [a1 H1] [a2 H2]. exists (a1 ++ a2).
  now rewrite H2, H1, app_assoc.
Qed.

Lemma reconciler_keeps_definitions ou_name account_ids s :
  keeps_definitions s
    (world_of
       (create_or_update_cost_category store_client ou_name account_ids s)).
Proof.
  rewrite create_or_update_on_store. cbv zeta.
  destruct (find _ (definitions s)) as [d|]; unfold world_of; simpl fst.
  - exists []. simpl. rewrite app_nil_r, map_map. apply map_ext.
    intros x. unfold reference_of.
    now rewrite replace_rules_keeps_name, replace_rules_keeps_arn.
  - eexists. simpl. rewrite map_app. reflexivity.
Qed.

Lemma lambda_handler_ou_keeps_definitions oc depth ou s :
  keeps_definitions s
    (world_of (lambda_handler_ou oc store_client depth ou s)).
Proof.
  rewrite lambda_handler_ou_unfold.
  destruct (get_ou_details oc (child_Id ou)) as [t0 [name|e]];
    [|apply keeps_definitions_refl].
  destruct (truthy_name name) as [n|]; [|apply keeps_definitions_refl].
  destruct (get_accounts_by_ou oc depth (child_Id ou)) as [t1 [accounts|e]];
    [|apply keeps_definitions_refl].
  destruct (map Id accounts) as [|i ids]; [apply keeps_definitions_refl|].
  pose proof (reconciler_keeps_definitions n (i :: ids) s) as Hrec.
  destruct (create_or_update_cost_category store_client n (i :: ids) s)
    as [[w2 t2] r]. exact Hrec.
Qed.

Lemma for_each_keeps_definitions oc depth l s :
  keeps_definitions s
    (world_of (for_each (lambda_handler_ou oc store_client depth) l s)).
Proof.
  revert s. induction l as [|ou l IH]; intros s;
    [apply keeps_definitions_refl|].
  rewrite for_each_cons.
  pose proof (lambda_handler_ou_keeps_definitions oc depth ou s) as Hou.
  destruct (lambda_handler_ou oc store_client depth ou s)
    as [[s1 t1] [[]|e]]; [|exact Hou].
  specialize (IH s1).
  destruct (for_each (lambda_handler_ou oc store_client depth) l s1)
    as [[s2 t2] r].
  apply (keeps_definitions_trans s s1 s2); assumption.
Qed.

Section LastRuns.

Variable json_dumps : string -> string.

(** X16.  Whenever the handler finds a root and returns a response, it
    has looked up the display name of every top-level OU that the
    listing delivered exactly once, in the order of the listing, and has
    described no other OU: an OU nested deeper is never described. *)
Theorem each_top_level_ou_is_described_once {W} oc (ce : ce_client W)
    depth w first_root roots resp :
  list_roots oc = Return (first_root :: roots) ->
  outcome_of (lambda_handler json_dumps oc ce depth w) = Return resp ->
  filter is_describe_call
    (calls (trace_of (lambda_handler json_dumps oc ce depth w)))
  = map (fun ou => describe_organizational_unit_call (child_Id ou))
      (all_children oc (root_Id first_root)).
Proof.
  intros Hroots.
  rewrite lambda_handler_unfold, lambda_handler_try_unfold. cbv zeta.
  rewrite Hroots.
  pose proof (for_each_describes oc ce depth
                (all_children oc (root_Id first_root)) w) as Hloop.
  pose proof (for_each_escapes (lambda_handler_ou oc ce depth)
                (all_children oc (root_Id first_root)) w) as Hesc.
  destruct (for_each _ _ w) as [[w1 t] [[]|e]].
  - specialize (Hloop eq_refl). unfold trace_of in Hloop. simpl in Hloop.
    destruct (failure (list_children oc (root_Id first_root))) as [[]|];
      unfold trace_of; simpl; try discriminate; intros _;
      rewrite ?calls_app, ?filter_app, Hloop; simpl;
      now rewrite ?app_nil_r.
  - assert (He : is_ClientError e = false).
    { apply Hesc; [|reflexivity].
      intros x s e0. apply lambda_handler_ou_escapes. }
    destruct e; simpl in *; discriminate.
Qed.

(** X17.  A run never removes and never renames a category: whatever
    the directory answers and however the run ends, every definition
    that the store held before the run is still there afterwards, under
    the same name and the same handle; definitions are only added after
    them. *)
Theorem run_never_removes_definitions oc depth s :
  keeps_definitions s
    (world_of (lambda_handler json_dumps oc store_client depth s)).
Proof.
  rewrite lambda_handler_unfold, lambda_handler_try_unfold. cbv zeta.
  destruct (list_roots oc) as [[|first_root roots]|e].
  - apply keeps_definitions_refl.
  - pose proof (for_each_keeps_definitions oc depth
                  (all_children oc (root_Id first_root)) s) as Hloop.
    destruct (for_each _ _ s) as [[s1 t] [[]|e]].
    + destruct (failure (list_children oc (root_Id first_root))) as [[]|];
        exact Hloop.
    + destruct e; exact Hloop.
  - destruct e; apply keeps_definitions_refl.
Qed.

End LastRuns.

Lemma each_top_level_ou_is_described_once_witness :
  filter is_describe_call
    (calls (trace_of (lambda_handler quoted sample_directory store_client 3
                        empty_store)))
  = [describe_organizational_unit_call "ou-finance";
     describe_organizational_unit_call "ou-engineering";
     describe_organizational_unit_call "ou-sandbox"].
Proof.
  apply (each_top_level_ou_is_described_once quoted sample_directory
           store_client 3 empty_store (mk_root "r-root") []
           (mk_response 200 (quoted "Cost categories updated successfully"))).
  - reflexivity.
  - vm_compute. reflexivity.
Defined.
